(** * Undervalued Growth Stock Screener (src/app.py)

    A shallow embedding of the fetch / filter / rank pipeline of
    [src/app.py] and the properties of its screening logic.

    Conventions of the embedding.
    - A Python value is a [pyval]: [None], a [bool], a number, the float
      [nan], or a string.  Python [int] and [float] are both read as exact
      rationals ([Q]); the rounding of float arithmetic, infinities and the
      OverflowError of an [int] beyond the float range are outside the
      model, so no property below rests on the exact value of a quotient
      or product: values are compared as stored, or equated with the
      expression the code evaluates.
    - An expression that may raise is a [result]: [Ok v] or [Raise e].
    - The dictionary returned by the metrics provider is a
      [gmap string pyval]; the dictionary built by [fetch_stock_metrics]
      has a fixed set of keys and is the record [row].
    - The external collaborators (the provider's lookup, the universe page,
      pandas' [sort_values]) are variables of the section [Screener]. *)

From Stdlib Require Import QArith ZArith List Bool String Lia Lqa.
From stdpp Require Import base option gmap strings.

Local Open Scope string_scope.
Local Open Scope Q_scope.

(** ** Python values *)

Inductive exn : Type :=
  | TypeError
  | ZeroDivisionError
  | ExternalError.

Inductive result (A : Type) : Type :=
  | Ok (a : A)
  | Raise (e : exn).
Arguments Ok {A} a.
Arguments Raise {A} e.

Definition bind {A B : Type} (c : result A) (k : A -> result B) : result B :=
  match c with
  | Ok a => k a
  | Raise e => Raise e
  end.

Notation "'let!' x ':=' c 'in' k" := (bind c (fun x => k))
  (at level 10, x name, c at level 100, k at level 200).

Inductive pyval : Type :=
  | VNone
  | VBool (b : bool)
  | VNum (q : Q)
  | VNaN
  | VStr (s : string).

(** A numeric operand: a finite number or nan.  [bool] is a subtype of
    [int] in Python, so [True] and [False] count as 1 and 0. *)
Inductive num : Type :=
  | Fin (q : Q)
  | NaN.

Definition num_of (v : pyval) : option num :=
  match v with
  | VBool b => Some (Fin (if b then 1 else 0))
  | VNum q => Some (Fin q)
  | VNaN => Some NaN
  | VNone | VStr _ => None
  end.

Definition of_num (x : num) : pyval :=
  match x with
  | Fin q => VNum q
  | NaN => VNaN
  end.

Definition Qltb (x y : Q) : bool := negb (Qle_bool y x).

Definition is_zero (x : num) : bool :=
  match x with
  | Fin q => Qeq_bool q 0
  | NaN => false
  end.

(** [bool(v)]: None, False, zero and the empty string are falsy; nan is
    truthy. *)
Definition truthy (v : pyval) : bool :=
  match v with
  | VNone => false
  | VBool b => b
  | VNum q => negb (Qeq_bool q 0)
  | VNaN => true
  | VStr s => negb (String.eqb s "")
  end.

Definition num_binop (f : Q -> Q -> Q) (x y : num) : num :=
  match x, y with
  | Fin a, Fin b => Fin (f a b)
  | _, _ => NaN
  end.

(** [a - b] *)
Definition py_sub (a b : pyval) : result pyval :=
  match num_of a, num_of b with
  | Some x, Some y => Ok (of_num (num_binop Qminus x y))
  | _, _ => Raise TypeError
  end.

(** [a + b] on numbers (the program never adds strings). *)
Definition py_add (a b : pyval) : result pyval :=
  match num_of a, num_of b with
  | Some x, Some y => Ok (of_num (num_binop Qplus x y))
  | _, _ => Raise TypeError
  end.

(** [a / b]: true division; a zero divisor raises. *)
Definition py_div (a b : pyval) : result pyval :=
  match num_of a, num_of b with
  | Some x, Some y =>
      if is_zero y then Raise ZeroDivisionError
      else Ok (of_num (num_binop Qdiv x y))
  | _, _ => Raise TypeError
  end.

Fixpoint str_repeat (s : string) (n : nat) : string :=
  match n with
  | O => ""
  | S n' => s ++ str_repeat s n'
  end.

(** [a * n] for an [int] literal [n]: a string is repeated. *)
Definition py_mul_int (a : pyval) (n : Z) : result pyval :=
  match a with
  | VStr s => Ok (VStr (str_repeat s (Z.to_nat n)))
  | _ =>
      match num_of a with
      | Some x => Ok (of_num (num_binop Qmult x (Fin (inject_Z n))))
      | None => Raise TypeError
      end
  end.

(** [a * x] for a [float] literal [x]. *)
Definition py_mul_float (a : pyval) (x : Q) : result pyval :=
  match num_of a with
  | Some y => Ok (of_num (num_binop Qmult y (Fin x)))
  | None => Raise TypeError
  end.

(** [a < t] and [a > t] against a numeric threshold [t]; any comparison
    with nan is False, a non-number on the left raises. *)
Definition py_lt (a : pyval) (t : Q) : result pyval :=
  match num_of a with
  | Some (Fin q) => Ok (VBool (Qltb q t))
  | Some NaN => Ok (VBool false)
  | None => Raise TypeError
  end.

Definition py_gt (a : pyval) (t : Q) : result pyval :=
  match num_of a with
  | Some (Fin q) => Ok (VBool (Qltb t q))
  | Some NaN => Ok (VBool false)
  | None => Raise TypeError
  end.

(** [x and y], [x or y]: the right operand is evaluated only when needed
    and the operand itself, not its truth value, is returned. *)
Definition py_and (x : result pyval) (y : result pyval) : result pyval :=
  let! v := x in if truthy v then y else Ok v.

Definition py_or (x : result pyval) (y : result pyval) : result pyval :=
  let! v := x in if truthy v then Ok v else y.

(** ** The provider's payload and [dict.get] *)

Definition get (info : gmap string pyval) (k : string) : pyval :=
  match info !! k with
  | Some v => v
  | None => VNone
  end.

Definition get_default (info : gmap string pyval) (k : string) (d : pyval)
  : pyval :=
  match info !! k with
  | Some v => v
  | None => d
  end.

(** The dictionary returned by [fetch_stock_metrics]; the keys
    ["Trailing P/E"], ["ROE %"], ... name its fields. *)
Record row : Type := mkRow {
  Ticker : string;
  Company : pyval;
  Sector : pyval;
  Trailing_PE : pyval;
  Forward_PE : pyval;
  PEG_Ratio : pyval;
  ROE_pct : pyval;
  Debt_Equity : pyval;
  Earnings_Growth_pct : pyval;
  Revenue_Growth_pct : pyval;
  Rec_Score : pyval;
  Upside_pct : pyval
}.

(** [info.get(k) * 100 if info.get(k) else np.nan] *)
Definition pct_of_ratio (info : gmap string pyval) (k : string)
  : result pyval :=
  if truthy (get info k) then py_mul_int (get info k) 100 else Ok VNaN.

(** The expression under the key ["Upside %"]. *)
Definition upside_expr (info : gmap string pyval) : result pyval :=
  let! c := py_and (Ok (get info "targetMeanPrice"))
                   (Ok (get info "currentPrice")) in
  if truthy c then
    let! d := py_sub (get info "targetMeanPrice") (get info "currentPrice") in
    let! r := py_div d (get info "currentPrice") in
    py_mul_int r 100
  else Ok VNaN.

(** The sliders of the sidebar. *)
Record config : Type := mkConfig {
  max_pe : Q;
  max_forward_pe : Q;
  max_peg : Q;
  min_roe : Q;
  min_upside : Q
}.

Definition default_config : config :=
  {| max_pe := 18; max_forward_pe := 15; max_peg := 12 # 10;
     min_roe := 8; min_upside := 15 |}.


(** ** The screening predicates (the body of the main loop) *)

(** [data[k] and data[k] < t], [data[k] and data[k] > t] *)
Definition below (v : pyval) (t : Q) : result pyval :=
  py_and (Ok v) (py_lt v t).

Definition above (v : pyval) (t : Q) : result pyval :=
  py_and (Ok v) (py_gt v t).

Definition undervalued (c : config) (data : row) : result pyval :=
  py_or (below (Trailing_PE data) (max_pe c))
    (py_or (below (Forward_PE data) (max_forward_pe c))
           (below (PEG_Ratio data) (max_peg c))).

Definition growth (c : config) (data : row) : result pyval :=
  py_or (above (Earnings_Growth_pct data) 8)
    (py_or (above (Revenue_Growth_pct data) 5)
           (above (Upside_pct data) (min_upside c))).

Definition quality (c : config) (data : row) : result pyval :=
  py_and (above (ROE_pct data) (min_roe c))
    (py_and (below (Debt_Equity data) 150)
            (below (Rec_Score data) (28 # 10))).

(** The three assignments followed by the test
    [if undervalued and growth and quality]. *)
Definition passes (c : config) (data : row) : result bool :=
  let! u := undervalued c data in
  let! g := growth c data in
  let! q := quality c data in
  let! p := py_and (Ok u) (py_and (Ok g) (Ok q)) in
  Ok (truthy p).

(** ** The Value Score column *)

(** [Series.fillna(d)]: None and nan are the missing values. *)
Definition fillna (d : Q) (v : pyval) : pyval :=
  match v with
  | VNone | VNaN => VNum d
  | _ => v
  end.

Fixpoint mapM {A B : Type} (f : A -> result B) (l : list A)
  : result (list B) :=
  match l with
  | [] => Ok []
  | a :: l' =>
      let! b := f a in
      let! bs := mapM f l' in
      Ok (b :: bs)
  end.

(** Element-wise operation on two series over the same index. *)
Fixpoint zipWithM {A B C : Type} (f : A -> B -> result C)
  (l1 : list A) (l2 : list B) : result (list C) :=
  match l1, l2 with
  | a :: l1', b :: l2' =>
      let! c := f a b in
      let! cs := zipWithM f l1' l2' in
      Ok (c :: cs)
  | _, _ => Ok []
  end.

Definition series_fillna (d : Q) (s : list pyval) : list pyval :=
  map (fillna d) s.

Definition series_mul (s : list pyval) (x : Q) : result (list pyval) :=
  mapM (fun v => py_mul_float v x) s.

Definition series_add (s1 s2 : list pyval) : result (list pyval) :=
  zipWithM py_add s1 s2.

Definition series_sub (s1 s2 : list pyval) : result (list pyval) :=
  zipWithM py_sub s1 s2.

(** [df["PEG Ratio"].fillna(999) * 0.4 + df["Trailing P/E"].fillna(999) * 0.3
     - df["Upside %"].fillna(0) * 0.3] *)
Definition value_score (df : list row) : result (list pyval) :=
  let! a := series_mul (series_fillna 999 (map PEG_Ratio df)) (4 # 10) in
  let! b := series_mul (series_fillna 999 (map Trailing_PE df)) (3 # 10) in
  let! ab := series_add a b in
  let! c := series_mul (series_fillna 0 (map Upside_pct df)) (3 # 10) in
  series_sub ab c.

(** A row of the frame once the ["Value Score"] column is assigned. *)
Record scored : Type := mkScored {
  record : row;
  Value_Score : pyval
}.

Definition assign_score (df : list row) (scores : list pyval) : list scored :=
  map (fun p => mkScored (fst p) (snd p)) (combine df scores).

(** What a run shows: nothing (the button was not pressed), the warning
    of the [else] branch, or the success message with the ranked frame,
    of which the table and the CSV download are renderings. *)
Inductive outcome : Type :=
  | Idle
  | Warning (msg : string)
  | Found (count : nat) (df : list scored).

Section Screener.

(** [yf.Ticker(ticker).info] *)
Variable yf_info : string -> result (gmap string pyval).

(** [load_sp500_tickers()] *)
Variable load_sp500_tickers : result (list string).

(** [df.sort_values("Value Score").reset_index(drop=True)] *)
Variable sort_values : list scored -> list scored.

(** The [try] block of [fetch_stock_metrics]. *)
Definition fetch_body (ticker : string) : result row :=
  let! info := yf_info ticker in
  let market_cap := get info "marketCap" in
  let free_cashflow := get info "freeCashflow" in
  let! roe := pct_of_ratio info "returnOnEquity" in
  let! eg := pct_of_ratio info "earningsGrowth" in
  let! rg := pct_of_ratio info "revenueGrowth" in
  let! up := upside_expr info in
  Ok {| Ticker := ticker;
        Company := get_default info "longName" (VStr "");
        Sector := get_default info "sector" (VStr "");
        Trailing_PE := get info "trailingPE";
        Forward_PE := get info "forwardPE";
        PEG_Ratio := get info "pegRatio";
        ROE_pct := roe;
        Debt_Equity := get info "debtToEquity";
        Earnings_Growth_pct := eg;
        Revenue_Growth_pct := rg;
        Rec_Score := get info "recommendationMean";
        Upside_pct := up |}.

(** The bare [except] turns every exception into [None]. *)
Definition fetch_stock_metrics (ticker : string) : option row :=
  match fetch_body ticker with
  | Ok data => Some data
  | Raise _ => None
  end.

(** The [for] loop over the tickers; [results] is the list built so far.
    An exception raised by a comparison is not caught. *)
Fixpoint scan (c : config) (results : list row) (tickers : list string)
  : result (list row) :=
  match tickers with
  | [] => Ok results
  | ticker :: rest =>
      match fetch_stock_metrics ticker with
      | Some data =>
          let! ok := passes c data in
          if ok then scan c (results ++ [data]) rest
          else scan c results rest
      | None => scan c results rest
      end
  end.

(** The block under [if run_button]. *)
Definition main (c : config) (run_button : bool) : result outcome :=
  if run_button then
    let! tickers := load_sp500_tickers in
    let! results := scan c [] tickers in
    match results with
    | [] => Ok (Warning "No stocks matched the criteria. Try relaxing filters.")
    | _ :: _ =>
        let! scores := value_score results in
        let df := sort_values (assign_score results scores) in
        Ok (Found (length df) df)
    end
  else Ok Idle.

End Screener.

(** ** Reading the values *)

(** The truth value an [if] sees; an expression that raised has none. *)
Definition holds (r : result pyval) : bool :=
  match r with
  | Ok v => truthy v
  | Raise _ => false
  end.

(** A field is absent when it holds None or nan. *)
Definition absent (v : pyval) : bool :=
  match v with
  | VNone | VNaN => true
  | _ => false
  end.

(** The fields of the data model are optional floats. *)
Definition float_or_none (v : pyval) : bool :=
  match v with
  | VNone | VNum _ | VNaN => true
  | _ => false
  end.


Definition present_above (v : pyval) (t : Q) : Prop :=
  exists q, v = VNum q /\ t < q.

(** Present, not zero, and below (above) the threshold. *)
Definition nonzero_below (v : pyval) (t : Q) : Prop :=
  exists q, v = VNum q /\ ~ q == 0 /\ q < t.

Definition nonzero_above (v : pyval) (t : Q) : Prop :=
  exists q, v = VNum q /\ ~ q == 0 /\ t < q.

(** ** The score as the Ranker's description words it *)

(** An absent field is replaced by [d]. *)
Definition or_default (d : Q) (v : pyval) : Q :=
  match v with
  | VNum q => q
  | _ => d
  end.

(** peg * 0.4 + trailing_pe * 0.3 - upside * 0.3, with 999 for an absent
    PEG ratio or trailing P/E and 0 for an absent upside. *)
Definition score_formula (r : row) : Q :=
  or_default 999 (PEG_Ratio r) * (4 # 10)
  + or_default 999 (Trailing_PE r) * (3 # 10)
  - or_default 0 (Upside_pct r) * (3 # 10).

(** The three fields the score reads are optional floats. *)
Definition score_fields_float (r : row) : bool :=
  float_or_none (PEG_Ratio r) && float_or_none (Trailing_PE r)
  && float_or_none (Upside_pct r).

(** A symbol contributes no record: its fetch failed or its snapshot
    does not pass the screen. *)
Definition screened_out (yf_info : string -> result (gmap string pyval))
  (c : config) (ticker : string) : Prop :=
  match fetch_stock_metrics yf_info ticker with
  | Some data => passes c data = Ok false
  | None => True
  end.

(** The numeric keys the program reads from a payload. *)
Definition numeric_keys : list string :=
  ["trailingPE"; "forwardPE"; "pegRatio"; "returnOnEquity"; "debtToEquity";
   "earningsGrowth"; "revenueGrowth"; "recommendationMean";
   "targetMeanPrice"; "currentPrice"].

(** A payload of the data model: every numeric key is missing, None or a
    float. *)
Definition payload_float (info : gmap string pyval) : bool :=
  forallb (fun k => float_or_none (get info k)) numeric_keys.

(** The provider fails for the symbol or answers with such a payload. *)
Definition fails_or_floats (yf_info : string -> result (gmap string pyval))
  (ticker : string) : Prop :=
  match yf_info ticker with
  | Ok info => payload_float info = true
  | Raise _ => True
  end.

(** ** Concrete inputs *)

(** The row built from an empty payload: every screened field absent. *)
Definition blank_row (ticker : string) : row :=
  {| Ticker := ticker; Company := VStr ""; Sector := VStr "";
     Trailing_PE := VNone; Forward_PE := VNone; PEG_Ratio := VNone;
     ROE_pct := VNaN; Debt_Equity := VNone;
     Earnings_Growth_pct := VNaN; Revenue_Growth_pct := VNaN;
     Rec_Score := VNone; Upside_pct := VNaN |}.



(** Trailing P/E 10; the other valuation fields hold strings. *)
Definition pe10_row : row :=
  {| Ticker := "P"; Company := VStr ""; Sector := VStr "";
     Trailing_PE := VNum 10; Forward_PE := VStr "Infinity";
     PEG_Ratio := VStr "n/a"; ROE_pct := VNaN; Debt_Equity := VNone;
     Earnings_Growth_pct := VNaN; Revenue_Growth_pct := VNaN;
     Rec_Score := VNone; Upside_pct := VNaN |}.

(** A row that meets every clause but, possibly, the one on ROE%. *)
Definition row_with_roe (roe : pyval) : row :=
  {| Ticker := "R"; Company := VStr ""; Sector := VStr "";
     Trailing_PE := VNum 12; Forward_PE := VNone; PEG_Ratio := VNone;
     ROE_pct := roe; Debt_Equity := VNum 50;
     Earnings_Growth_pct := VNum 10; Revenue_Growth_pct := VNaN;
     Rec_Score := VNum 2; Upside_pct := VNaN |}.

Definition zero_roe_row : row := row_with_roe (VNum 0).

Definition config_with_min_roe (t : Q) : config :=
  {| max_pe := 18; max_forward_pe := 15; max_peg := 12 # 10;
     min_roe := t; min_upside := 15 |}.

(** A price that is None or zero. *)
Definition none_or_zero (v : pyval) : bool :=
  match v with
  | VNone => true
  | VNum q => Qeq_bool q 0
  | _ => false
  end.

(** Target price 0 with current price 50. *)
Definition zero_target_info : gmap string pyval :=
  {[ "targetMeanPrice" := VNum 0; "currentPrice" := VNum 50 ]}.

(** Target price 60 with current price 50. *)
Definition prices_info : gmap string pyval :=
  {[ "targetMeanPrice" := VNum 60; "currentPrice" := VNum 50 ]}.

(** Current price 0. *)
Definition zero_current_info : gmap string pyval :=
  {[ "targetMeanPrice" := VNum 60; "currentPrice" := VNum 0 ]}.

(** Return on equity 0, earnings growth 0.12. *)
Definition ratios_info : gmap string pyval :=
  {[ "returnOnEquity" := VNum 0; "earningsGrowth" := VNum (12 # 100) ]}.

(** A provider that answers every symbol with the same payload. *)
Definition constant_provider (info : gmap string pyval)
  : string -> result (gmap string pyval) :=
  fun _ => Ok info.

(** A provider that fails for the symbol ["BAD"] and returns an empty
    payload otherwise. *)
Definition failing_provider (ticker : string)
  : result (gmap string pyval) :=
  if String.eqb ticker "BAD" then Raise ExternalError else Ok ∅.

(** A payload whose target price is a string: the subtraction raises. *)
Definition string_price_info : gmap string pyval :=
  {[ "targetMeanPrice" := VStr "n/a"; "currentPrice" := VNum 5 ]}.

(** A row without PEG ratio and trailing P/E, and one with all three
    fields of the score. *)
Definition upside_only_row : row :=
  {| Ticker := "U"; Company := VStr ""; Sector := VStr "";
     Trailing_PE := VNone; Forward_PE := VNum 9; PEG_Ratio := VNaN;
     ROE_pct := VNum 15; Debt_Equity := VNum 50;
     Earnings_Growth_pct := VNum 10; Revenue_Growth_pct := VNaN;
     Rec_Score := VNum 2; Upside_pct := VNum 20 |}.

Definition full_row : row :=
  {| Ticker := "F"; Company := VStr ""; Sector := VStr "";
     Trailing_PE := VNum 12; Forward_PE := VNum 9; PEG_Ratio := VNum 1;
     ROE_pct := VNum 15; Debt_Equity := VNum 50;
     Earnings_Growth_pct := VNum 10; Revenue_Growth_pct := VNaN;
     Rec_Score := VNum 2; Upside_pct := VNaN |}.

(** ** Notions used to describe the screen and the scan *)

(** The nine fields the three predicates read are optional floats. *)
Definition snapshot_float (data : row) : bool :=
  float_or_none (Trailing_PE data) && float_or_none (Forward_PE data)
  && float_or_none (PEG_Ratio data)
  && float_or_none (Earnings_Growth_pct data)
  && float_or_none (Revenue_Growth_pct data)
  && float_or_none (Upside_pct data)
  && float_or_none (ROE_pct data) && float_or_none (Debt_Equity data)
  && float_or_none (Rec_Score data).

(** The conditions under which each predicate is truthy. *)
Definition undervalued_cond (c : config) (data : row) : Prop :=
  nonzero_below (Trailing_PE data) (max_pe c) \/
  nonzero_below (Forward_PE data) (max_forward_pe c) \/
  nonzero_below (PEG_Ratio data) (max_peg c).

Definition growth_cond (c : config) (data : row) : Prop :=
  nonzero_above (Earnings_Growth_pct data) 8 \/
  nonzero_above (Revenue_Growth_pct data) 5 \/
  nonzero_above (Upside_pct data) (min_upside c).

Definition quality_cond (c : config) (data : row) : Prop :=
  nonzero_above (ROE_pct data) (min_roe c) /\
  nonzero_below (Debt_Equity data) 150 /\
  nonzero_below (Rec_Score data) (28 # 10).

(** The sliders of [c'] are at least as permissive as those of [c]. *)
Definition relaxed (c c' : config) : Prop :=
  max_pe c <= max_pe c' /\ max_forward_pe c <= max_forward_pe c' /\
  max_peg c <= max_peg c' /\ min_roe c' <= min_roe c /\
  min_upside c' <= min_upside c.

(** Every key [fetch_stock_metrics] looks up and stores. *)
Definition read_keys : list string :=
  ["longName"; "sector"; "trailingPE"; "forwardPE"; "pegRatio";
   "returnOnEquity"; "debtToEquity"; "earningsGrowth"; "revenueGrowth";
   "recommendationMean"; "targetMeanPrice"; "currentPrice"].

(** The loosest sliders of the sidebar. *)
Definition loosest_config : config :=
  {| max_pe := 30; max_forward_pe := 30; max_peg := 3;
     min_roe := 0; min_upside := 0 |}.

(** A payload that passes the default screen. *)
Definition good_info : gmap string pyval :=
  {[ "trailingPE" := VNum 12; "earningsGrowth" := VNum (10 # 100);
     "returnOnEquity" := VNum (15 # 100); "debtToEquity" := VNum 50;
     "recommendationMean" := VNum 2 ]}.

(** A provider with one passing symbol, one failing symbol and empty
    payloads otherwise. *)
Definition sample_provider (ticker : string)
  : result (gmap string pyval) :=
  if String.eqb ticker "GOOD" then Ok good_info
  else if String.eqb ticker "BAD" then Raise ExternalError
  else Ok ∅.

Definition sample_tickers : list string := ["A"; "GOOD"; "BAD"; "C"].

(** What the scan of [sample_tickers] returns. *)
Definition sample_results : list row :=
  Eval vm_compute in
    match scan sample_provider default_config [] sample_tickers with
    | Ok rs => rs
    | Raise _ => []
    end.

(** A payload with none of the keys the fetcher reads. *)
Definition unrelated_info : gmap string pyval :=
  {[ "marketCap" := VNum 5 ]}.

(** The snapshot fetched for the passing symbol of [sample_provider]. *)
Definition good_row : row :=
  Eval vm_compute in
    match fetch_stock_metrics sample_provider "GOOD" with
    | Some data => data
    | None => blank_row "GOOD"
    end.

(** A payload whose trailing P/E is a string. *)
Definition string_pe_info : gmap string pyval :=
  {[ "trailingPE" := VStr "Infinity" ]}.

(** The frame handed to [sort_values]: each record with its score. *)
Definition scored_frame (rs : list row) : list scored :=
  map (fun r => mkScored r (VNum (score_formula r))) rs.

(** A payload that meets every threshold of the default screen but reports
    a return on equity of exactly 0, and the same payload without that
    key. *)
Definition zero_roe_info : gmap string pyval :=
  {[ "trailingPE" := VNum 12; "earningsGrowth" := VNum (10 # 100);
     "returnOnEquity" := VNum 0; "debtToEquity" := VNum 50;
     "recommendationMean" := VNum 2 ]}.

Definition no_roe_info : gmap string pyval :=
  {[ "trailingPE" := VNum 12; "earningsGrowth" := VNum (10 # 100);
     "debtToEquity" := VNum 50; "recommendationMean" := VNum 2 ]}.


(** ** Arithmetic facts *)

Lemma Qltb_lt (x y : Q) : Qltb x y = true <-> x < y.
Proof.
  unfold Qltb. rewrite negb_true_iff. split.
  - intros H. apply Qnot_le_lt. intros Hle.
    apply Qle_bool_iff in Hle. congruence.
  - intros H. destruct (Qle_bool y x) eqn:E; [|reflexivity].
    apply Qle_bool_iff in E. exfalso. exact (Qlt_not_le _ _ H E).
Qed.

Lemma truthy_num (q : Q) : truthy (VNum q) = true <-> ~ q == 0.
Proof.
  simpl. rewrite negb_true_iff. split.
  - intros H Hq. apply Qeq_bool_iff in Hq. congruence.
  - intros H. destruct (Qeq_bool q 0) eqn:E; [|reflexivity].
    apply Qeq_bool_iff in E. contradiction.
Qed.

Lemma falsy_num (q : Q) : truthy (VNum q) = false <-> q == 0.
Proof.
  simpl. rewrite negb_false_iff. apply Qeq_bool_iff.
Qed.

(** ** The clauses [data[k] and data[k] < t] *)

Lemma below_float (v : pyval) (t : Q) :
  float_or_none v = true ->
  exists w, below v t = Ok w /\ (truthy w = true <-> nonzero_below v t).
Proof.
  destruct v as [| b | q | | s]; simpl; intros Hv; try discriminate.
  - exists VNone. split; [reflexivity|]. simpl. split; [discriminate|].
    intros (q & Hq & _). discriminate.
  - unfold below, py_and. simpl.
    destruct (Qeq_bool q 0) eqn:E; simpl.
    + exists (VNum q). split; [reflexivity|]. simpl. rewrite E. simpl.
      split; [discriminate|]. intros (q' & Hq' & Hnz & _).
      injection Hq' as <-. apply Qeq_bool_iff in E. contradiction.
    + exists (VBool (Qltb q t)). split; [reflexivity|]. simpl.
      rewrite Qltb_lt. split.
      * intros Hlt. exists q. repeat split; [|exact Hlt].
        intros Hq. apply Qeq_bool_iff in Hq. congruence.
      * intros (q' & Hq' & _ & Hlt). injection Hq' as <-. exact Hlt.
  - exists (VBool false). split; [reflexivity|]. simpl.
    split; [discriminate|]. intros (q & Hq & _). discriminate.
Qed.

Lemma above_float (v : pyval) (t : Q) :
  float_or_none v = true ->
  exists w, above v t = Ok w /\ (truthy w = true <-> nonzero_above v t).
Proof.
  destruct v as [| b | q | | s]; simpl; intros Hv; try discriminate.
  - exists VNone. split; [reflexivity|]. simpl. split; [discriminate|].
    intros (q & Hq & _). discriminate.
  - unfold above, py_and. simpl.
    destruct (Qeq_bool q 0) eqn:E; simpl.
    + exists (VNum q). split; [reflexivity|]. simpl. rewrite E. simpl.
      split; [discriminate|]. intros (q' & Hq' & Hnz & _).
      injection Hq' as <-. apply Qeq_bool_iff in E. contradiction.
    + exists (VBool (Qltb t q)). split; [reflexivity|]. simpl.
      rewrite Qltb_lt. split.
      * intros Hlt. exists q. repeat split; [|exact Hlt].
        intros Hq. apply Qeq_bool_iff in Hq. congruence.
      * intros (q' & Hq' & _ & Hlt). injection Hq' as <-. exact Hlt.
  - exists (VBool false). split; [reflexivity|]. simpl.
    split; [discriminate|]. intros (q & Hq & _). discriminate.
Qed.

(** [x or y] of two expressions that do not raise. *)
Lemma holds_or (x y : result pyval) (v : pyval) :
  x = Ok v -> holds (py_or x y) = truthy v || holds y.
Proof.
  intros ->. unfold py_or. simpl. destruct (truthy v) eqn:E; simpl.
  - exact E.
  - reflexivity.
Qed.

(** ** The undervalued predicate *)

Lemma undervalued_float (c : config) (data : row) :
  float_or_none (Trailing_PE data) = true ->
  float_or_none (Forward_PE data) = true ->
  float_or_none (PEG_Ratio data) = true ->
  holds (undervalued c data) = true <->
  nonzero_below (Trailing_PE data) (max_pe c) \/
  nonzero_below (Forward_PE data) (max_forward_pe c) \/
  nonzero_below (PEG_Ratio data) (max_peg c).
Proof.
  intros H1 H2 H3. unfold undervalued.
  destruct (below_float _ (max_pe c) H1) as (w1 & E1 & I1).
  destruct (below_float _ (max_forward_pe c) H2) as (w2 & E2 & I2).
  destruct (below_float _ (max_peg c) H3) as (w3 & E3 & I3).
  rewrite (holds_or _ _ w1 E1), (holds_or _ _ w2 E2), E3. simpl.
  rewrite !orb_true_iff, I1, I2, I3. reflexivity.
Qed.




(** ** All screened fields absent *)

Lemma below_absent_ok (v : pyval) (t : Q) :
  absent v = true -> exists w, below v t = Ok w /\ truthy w = false.
Proof.
  destruct v; simpl; intros H; try discriminate.
  - exists VNone. split; reflexivity.
  - exists (VBool false). split; reflexivity.
Qed.

Lemma above_absent_ok (v : pyval) (t : Q) :
  absent v = true -> exists w, above v t = Ok w /\ truthy w = false.
Proof.
  destruct v; simpl; intros H; try discriminate.
  - exists VNone. split; reflexivity.
  - exists (VBool false). split; reflexivity.
Qed.

Lemma or_falsy (x y : result pyval) (v w : pyval) :
  x = Ok v -> truthy v = false -> y = Ok w -> py_or x y = Ok w.
Proof. intros -> Hv ->. unfold py_or. simpl. rewrite Hv. reflexivity. Qed.

Lemma and_falsy (x y : result pyval) (v : pyval) :
  x = Ok v -> truthy v = false -> py_and x y = Ok v.
Proof. intros -> Hv. unfold py_and. simpl. rewrite Hv. reflexivity. Qed.

(** C6: for every threshold configuration, [passes] is false (and raises
    nothing) on a snapshot in which the nine fields read by [undervalued],
    [growth] and [quality] are all absent. *)
Theorem passes_all_absent (c : config) (data : row) :
  absent (Trailing_PE data) = true ->
  absent (Forward_PE data) = true ->
  absent (PEG_Ratio data) = true ->
  absent (Earnings_Growth_pct data) = true ->
  absent (Revenue_Growth_pct data) = true ->
  absent (Upside_pct data) = true ->
  absent (ROE_pct data) = true ->
  absent (Debt_Equity data) = true ->
  absent (Rec_Score data) = true ->
  passes c data = Ok false.
Proof.
  intros H1 H2 H3 H4 H5 H6 H7 H8 H9.
  destruct (below_absent_ok _ (max_pe c) H1) as (u1 & E1 & F1).
  destruct (below_absent_ok _ (max_forward_pe c) H2) as (u2 & E2 & F2).
  destruct (below_absent_ok _ (max_peg c) H3) as (u3 & E3 & F3).
  destruct (above_absent_ok _ 8 H4) as (g1 & G1 & K1).
  destruct (above_absent_ok _ 5 H5) as (g2 & G2 & K2).
  destruct (above_absent_ok _ (min_upside c) H6) as (g3 & G3 & K3).
  destruct (above_absent_ok _ (min_roe c) H7) as (q1 & Q1 & L1).
  assert (U : undervalued c data = Ok u3).
  { unfold undervalued.
    apply (or_falsy _ _ u1 u3 E1 F1). apply (or_falsy _ _ u2 u3 E2 F2 E3). }
  assert (G : growth c data = Ok g3).
  { unfold growth.
    apply (or_falsy _ _ g1 g3 G1 K1). apply (or_falsy _ _ g2 g3 G2 K2 G3). }
  assert (Qy : quality c data = Ok q1).
  { unfold quality. apply (and_falsy _ _ q1 Q1 L1). }
  unfold passes. rewrite U, G, Qy. simpl.
  unfold py_and. simpl. rewrite F3. simpl. rewrite F3. reflexivity.
Qed.

Lemma passes_all_absent_witness :
  passes default_config (blank_row "B") = Ok false.
Proof. apply passes_all_absent; reflexivity. Defined.

(** ** The derived fields of [fetch_stock_metrics] *)

Lemma none_or_zero_falsy (v : pyval) :
  none_or_zero v = true -> truthy v = false.
Proof.
  destruct v; simpl; intros H; try discriminate; [reflexivity|].
  rewrite H. reflexivity.
Qed.

Lemma pct_of_ratio_total (info : gmap string pyval) (k : string) :
  exists v, pct_of_ratio info k = Ok v.
Proof.
  unfold pct_of_ratio. destruct (get info k) as [| b | q | | s]; simpl.
  - eauto.
  - destruct b; eauto.
  - destruct (negb (Qeq_bool q 0)); eauto.
  - eauto.
  - destruct (negb (s =? "")%string); eauto.
Qed.

Lemma pct_of_ratio_zero (info : gmap string pyval) (k : string) (q : Q) :
  get info k = VNum q -> q == 0 -> pct_of_ratio info k = Ok VNaN.
Proof.
  intros Hk Hq. unfold pct_of_ratio. rewrite Hk.
  apply falsy_num in Hq. rewrite Hq. reflexivity.
Qed.

Lemma pct_of_ratio_nonzero (info : gmap string pyval) (k : string) (q : Q) :
  get info k = VNum q -> ~ q == 0 ->
  pct_of_ratio info k = Ok (VNum (q * 100)).
Proof.
  intros Hk Hq. unfold pct_of_ratio. rewrite Hk.
  apply truthy_num in Hq. rewrite Hq. reflexivity.
Qed.

Lemma upside_falsy (info : gmap string pyval) :
  truthy (get info "targetMeanPrice") = false \/
  truthy (get info "currentPrice") = false ->
  upside_expr info = Ok VNaN.
Proof.
  unfold upside_expr, py_and. simpl.
  destruct (truthy (get info "targetMeanPrice")) eqn:Et; simpl.
  - intros [H | H]; [discriminate|]. rewrite H. reflexivity.
  - intros _. rewrite Et. reflexivity.
Qed.

Lemma upside_nonzero (info : gmap string pyval) (t c : Q) :
  get info "targetMeanPrice" = VNum t ->
  get info "currentPrice" = VNum c ->
  ~ t == 0 -> ~ c == 0 ->
  upside_expr info = Ok (VNum ((t - c) / c * 100)).
Proof.
  intros Ht Hc Hnt Hnc. unfold upside_expr, py_and. rewrite Ht, Hc.
  pose proof (proj2 (truthy_num t) Hnt) as Tt.
  pose proof (proj2 (truthy_num c) Hnc) as Tc.
  simpl in Tt, Tc. simpl. rewrite Tt. simpl. rewrite Tc. simpl.
  unfold py_div. simpl.
  apply negb_true_iff in Tc. rewrite Tc. reflexivity.
Qed.

(** A truthy divisor is not zero. *)
Lemma py_div_truthy (d c : pyval) :
  truthy c = true -> py_div d c <> Raise ZeroDivisionError.
Proof.
  intros Hc. unfold py_div.
  destruct (num_of d) as [x|]; [|destruct (num_of c); discriminate].
  destruct c as [| b | q | | s]; cbn [num_of]; try discriminate.
  - cbn [truthy] in Hc. subst b. discriminate.
  - cbn [truthy] in Hc. apply negb_true_iff in Hc.
    cbn [is_zero]. rewrite Hc. discriminate.
Qed.

Lemma py_sub_no_zero_division (a b : pyval) :
  py_sub a b <> Raise ZeroDivisionError.
Proof.
  unfold py_sub. destruct (num_of a), (num_of b); discriminate.
Qed.

Lemma py_mul_int_no_zero_division (r : pyval) (n : Z) :
  py_mul_int r n <> Raise ZeroDivisionError.
Proof.
  unfold py_mul_int. destruct r; cbn [num_of]; discriminate.
Qed.

(** The division is reached only with a truthy divisor. *)
Lemma upside_no_zero_division (info : gmap string pyval) :
  upside_expr info <> Raise ZeroDivisionError.
Proof.
  unfold upside_expr, py_and. cbn [bind].
  destruct (truthy (get info "targetMeanPrice")) eqn:Et; cbn [bind].
  - destruct (truthy (get info "currentPrice")) eqn:Ec; [|discriminate].
    destruct (py_sub _ _) as [d|e] eqn:Ed; cbn [bind].
    + destruct (py_div d _) as [r|e] eqn:Er; cbn [bind].
      * apply py_mul_int_no_zero_division.
      * intros H. apply (py_div_truthy d _ Ec). rewrite Er. exact H.
    + intros H. apply (py_sub_no_zero_division _ _ (eq_trans Ed H)).
  - rewrite Et. discriminate.
Qed.

Lemma upside_float_total (info : gmap string pyval) :
  float_or_none (get info "targetMeanPrice") = true ->
  float_or_none (get info "currentPrice") = true ->
  exists v, upside_expr info = Ok v /\ float_or_none v = true.
Proof.
  unfold upside_expr, py_and, py_sub, py_div.
  generalize (get info "targetMeanPrice") (get info "currentPrice").
  intros t c.
  destruct t as [| bt | qt | | st], c as [| bc | qc | | sc];
    cbn [float_or_none]; intros Ht Hc; try discriminate;
    cbn [bind truthy num_of negb];
    repeat match goal with
           | H : Qeq_bool ?q 0 = _ |- context [Qeq_bool ?q 0] =>
               rewrite H;
               cbn [bind truthy num_of negb is_zero num_binop of_num]
           | |- context [Qeq_bool ?q 0] =>
               destruct (Qeq_bool q 0) eqn:?;
               cbn [bind truthy num_of negb is_zero num_binop of_num]
           end;
    eexists; split; reflexivity.
Qed.

Section Fetch.

Variable yf_info : string -> result (gmap string pyval).

(** A snapshot is returned exactly when the provider answers and the
    upside expression does not raise; its fields are then as follows. *)
Lemma fetch_some (ticker : string) (info : gmap string pyval)
    (up : pyval) :
  yf_info ticker = Ok info ->
  upside_expr info = Ok up ->
  exists data,
    fetch_stock_metrics yf_info ticker = Some data /\
    pct_of_ratio info "returnOnEquity" = Ok (ROE_pct data) /\
    pct_of_ratio info "earningsGrowth" = Ok (Earnings_Growth_pct data) /\
    pct_of_ratio info "revenueGrowth" = Ok (Revenue_Growth_pct data) /\
    Upside_pct data = up /\
    Trailing_PE data = get info "trailingPE" /\
    Forward_PE data = get info "forwardPE" /\
    PEG_Ratio data = get info "pegRatio" /\
    Debt_Equity data = get info "debtToEquity" /\
    Rec_Score data = get info "recommendationMean".
Proof.
  intros Hi Hu.
  destruct (pct_of_ratio_total info "returnOnEquity") as (roe & Hroe).
  destruct (pct_of_ratio_total info "earningsGrowth") as (eg & Heg).
  destruct (pct_of_ratio_total info "revenueGrowth") as (rg & Hrg).
  unfold fetch_stock_metrics, fetch_body.
  rewrite Hi. cbn [bind]. rewrite Hroe, Heg, Hrg, Hu. cbn [bind].
  eexists. split; [reflexivity|]. cbn.
  repeat split; reflexivity.
Qed.

Lemma fetch_inv (ticker : string) (data : row) :
  fetch_stock_metrics yf_info ticker = Some data ->
  exists info,
    yf_info ticker = Ok info /\
    pct_of_ratio info "returnOnEquity" = Ok (ROE_pct data) /\
    pct_of_ratio info "earningsGrowth" = Ok (Earnings_Growth_pct data) /\
    pct_of_ratio info "revenueGrowth" = Ok (Revenue_Growth_pct data) /\
    upside_expr info = Ok (Upside_pct data).
Proof.
  unfold fetch_stock_metrics, fetch_body.
  destruct (yf_info ticker) as [info|e]; cbn [bind]; [|discriminate].
  destruct (pct_of_ratio info "returnOnEquity") as [roe|e] eqn:Hr;
    cbn [bind]; [|discriminate].
  destruct (pct_of_ratio info "earningsGrowth") as [eg|e] eqn:He;
    cbn [bind]; [|discriminate].
  destruct (pct_of_ratio info "revenueGrowth") as [rg|e] eqn:Hg;
    cbn [bind]; [|discriminate].
  destruct (upside_expr info) as [up|e] eqn:Hu; cbn [bind]; [|discriminate].
  intros H. injection H as <-. exists info. cbn.
  repeat split; assumption.
Qed.

(** C5 (as amended): for every symbol the provider answers, the upside
    percent of the fetched snapshot is (target - current) / current * 100
    when the target price and the current price are both present and
    both different from zero, and is absent (nan) when either of them is
    None or zero. *)
Theorem upside_pct_when_nonzero (ticker : string)
    (info : gmap string pyval) :
  yf_info ticker = Ok info ->
  (forall t c : Q,
     get info "targetMeanPrice" = VNum t ->
     get info "currentPrice" = VNum c ->
     ~ t == 0 -> ~ c == 0 ->
     exists data,
       fetch_stock_metrics yf_info ticker = Some data /\
       Upside_pct data = VNum ((t - c) / c * 100)) /\
  (none_or_zero (get info "targetMeanPrice") = true \/
   none_or_zero (get info "currentPrice") = true ->
   exists data,
     fetch_stock_metrics yf_info ticker = Some data /\
     Upside_pct data = VNaN).
Proof.
  intros Hi. split.
  - intros t c Ht Hc Hnt Hnc.
    destruct (fetch_some ticker info _ Hi (upside_nonzero info t c Ht Hc Hnt Hnc))
      as (data & Hf & _ & _ & _ & Hu & _).
    exists data. split; assumption.
  - intros H.
    assert (Hu : upside_expr info = Ok VNaN).
    { apply upside_falsy.
      destruct H as [H | H]; [left | right];
        apply none_or_zero_falsy; exact H. }
    destruct (fetch_some ticker info _ Hi Hu)
      as (data & Hf & _ & _ & _ & Hu' & _).
    exists data. split; assumption.
Qed.

(** C10: for every payload the provider returns, a return on equity,
    earnings growth or revenue growth that is exactly 0 leaves the
    percentage field of the fetched snapshot absent (nan), and one that
    is not zero is stored multiplied by 100; a snapshot is returned
    whenever the two price fields hold optional floats. *)
Theorem zero_ratio_recorded_as_nan (ticker : string)
    (info : gmap string pyval) :
  yf_info ticker = Ok info ->
  (forall data,
     fetch_stock_metrics yf_info ticker = Some data ->
     forall q : Q,
       (get info "returnOnEquity" = VNum q ->
        (q == 0 -> ROE_pct data = VNaN) /\
        (~ q == 0 -> ROE_pct data = VNum (q * 100))) /\
       (get info "earningsGrowth" = VNum q ->
        (q == 0 -> Earnings_Growth_pct data = VNaN) /\
        (~ q == 0 -> Earnings_Growth_pct data = VNum (q * 100))) /\
       (get info "revenueGrowth" = VNum q ->
        (q == 0 -> Revenue_Growth_pct data = VNaN) /\
        (~ q == 0 -> Revenue_Growth_pct data = VNum (q * 100)))) /\
  (float_or_none (get info "targetMeanPrice") = true ->
   float_or_none (get info "currentPrice") = true ->
   exists data, fetch_stock_metrics yf_info ticker = Some data).
Proof.
  intros Hi. split.
  - intros data Hf q.
    destruct (fetch_inv ticker data Hf) as (info' & Hi' & Hr & He & Hg & _).
    rewrite Hi in Hi'. injection Hi' as <-.
    assert (Hk : forall k v, pct_of_ratio info k = Ok v ->
              get info k = VNum q ->
              (q == 0 -> v = VNaN) /\ (~ q == 0 -> v = VNum (q * 100))).
    { intros k v Hv Hk. split; intros Hq.
      - rewrite (pct_of_ratio_zero info k q Hk Hq) in Hv. congruence.
      - rewrite (pct_of_ratio_nonzero info k q Hk Hq) in Hv. congruence. }
    repeat split; intros; eapply Hk; eassumption.
  - intros Ht Hc.
    destruct (upside_float_total info Ht Hc) as (up & Hu & _).
    destruct (fetch_some ticker info up Hi Hu) as (data & Hf & _).
    exists data. exact Hf.
Qed.

End Fetch.

Lemma upside_pct_when_nonzero_witness :
  (exists data,
     fetch_stock_metrics (constant_provider prices_info) "T" = Some data /\
     Upside_pct data = VNum ((60 - 50) / 50 * 100)) /\
  (exists data,
     fetch_stock_metrics (constant_provider zero_current_info) "T"
       = Some data /\
     Upside_pct data = VNaN).
Proof.
  split.
  - apply (proj1 (upside_pct_when_nonzero (constant_provider prices_info)
                    "T" prices_info eq_refl) 60 50);
      [reflexivity | reflexivity | discriminate | discriminate].
  - apply (proj2 (upside_pct_when_nonzero
                    (constant_provider zero_current_info)
                    "T" zero_current_info eq_refl)).
    right. reflexivity.
Defined.

(** C5 as stated fails at a present target price of 0: with current
    price 50 the formula gives (0 - 50) / 50 * 100 = -100, the fetched
    snapshot holds nan. *)
Lemma upside_zero_target_counterexample :
  get zero_target_info "targetMeanPrice" = VNum 0 /\
  get zero_target_info "currentPrice" = VNum 50 /\
  option_map Upside_pct
    (fetch_stock_metrics (constant_provider zero_target_info) "T")
    = Some VNaN /\
  VNaN <> VNum ((0 - 50) / 50 * 100).
Proof.
  split; [|split; [|split]].
  - reflexivity.
  - reflexivity.
  - vm_compute. reflexivity.
  - discriminate.
Qed.

Lemma zero_ratio_recorded_as_nan_witness :
  (forall data,
     fetch_stock_metrics (constant_provider ratios_info) "T" = Some data ->
     ROE_pct data = VNaN /\
     Earnings_Growth_pct data = VNum ((12 # 100) * 100)) /\
  (exists data,
     fetch_stock_metrics (constant_provider ratios_info) "T" = Some data).
Proof.
  pose proof (zero_ratio_recorded_as_nan (constant_provider ratios_info)
                "T" ratios_info eq_refl) as [Hfields Hsome].
  split.
  - intros data Hf. split.
    + apply (proj1 (Hfields data Hf 0)); reflexivity.
    + apply (proj1 (proj2 (Hfields data Hf (12 # 100))));
        [reflexivity | discriminate].
  - apply Hsome; reflexivity.
Defined.

(** ** No division by zero *)

(** C9 (as amended): the upside computation never divides by zero: for
    every payload it raises no ZeroDivisionError, and when the current
    price is 0 or None the result is nan and the division is not
    evaluated; for every payload whose two price fields are optional floats
    the computation raises nothing. *)
Theorem upside_never_divides_by_zero (info : gmap string pyval) :
  upside_expr info <> Raise ZeroDivisionError /\
  (none_or_zero (get info "currentPrice") = true ->
   upside_expr info = Ok VNaN) /\
  (float_or_none (get info "targetMeanPrice") = true ->
   float_or_none (get info "currentPrice") = true ->
   exists v, upside_expr info = Ok v).
Proof.
  split; [|split].
  - apply upside_no_zero_division.
  - intros H. apply upside_falsy. right. apply none_or_zero_falsy. exact H.
  - intros Ht Hc. destruct (upside_float_total info Ht Hc) as (v & Hv & _).
    exists v. exact Hv.
Qed.

Lemma upside_never_divides_by_zero_witness :
  upside_expr zero_current_info = Ok VNaN /\
  (exists v, upside_expr zero_current_info = Ok v).
Proof.
  split.
  - apply (proj1 (proj2 (upside_never_divides_by_zero zero_current_info))).
    reflexivity.
  - apply (proj2 (proj2 (upside_never_divides_by_zero zero_current_info)));
      reflexivity.
Defined.

(** ** The Value Score *)

Lemma series_mul_fillna (g : row -> pyval) (d x : Q) (df : list row) :
  Forall (fun r => float_or_none (g r) = true) df ->
  series_mul (series_fillna d (map g df)) x
  = Ok (map (fun r => VNum (or_default d (g r) * x)) df).
Proof.
  unfold series_mul, series_fillna.
  induction 1 as [| r df Hr _ IH]; [reflexivity|].
  cbn [map mapM]. rewrite IH.
  destruct (g r); try discriminate; reflexivity.
Qed.

Lemma series_add_nums (f g : row -> Q) (df : list row) :
  series_add (map (fun r => VNum (f r)) df) (map (fun r => VNum (g r)) df)
  = Ok (map (fun r => VNum (f r + g r)) df).
Proof.
  unfold series_add. induction df as [| r df IH]; [reflexivity|].
  cbn [map zipWithM]. rewrite IH. reflexivity.
Qed.

Lemma series_sub_nums (f g : row -> Q) (df : list row) :
  series_sub (map (fun r => VNum (f r)) df) (map (fun r => VNum (g r)) df)
  = Ok (map (fun r => VNum (f r - g r)) df).
Proof.
  unfold series_sub. induction df as [| r df IH]; [reflexivity|].
  cbn [map zipWithM]. rewrite IH. reflexivity.
Qed.

Lemma value_score_map (df : list row) :
  Forall (fun r => score_fields_float r = true) df ->
  value_score df = Ok (map (fun r => VNum (score_formula r)) df).
Proof.
  intros H. unfold value_score.
  rewrite (series_mul_fillna PEG_Ratio), (series_mul_fillna Trailing_PE),
    (series_mul_fillna Upside_pct).
  - cbn [bind]. rewrite series_add_nums. cbn [bind].
    rewrite series_sub_nums. reflexivity.
  - eapply Forall_impl; [exact H|]. intros r Hr. unfold score_fields_float in Hr.
    apply andb_true_iff in Hr. tauto.
  - eapply Forall_impl; [exact H|]. intros r Hr. unfold score_fields_float in Hr.
    apply andb_true_iff in Hr as [Hr _]. apply andb_true_iff in Hr. tauto.
  - eapply Forall_impl; [exact H|]. intros r Hr. unfold score_fields_float in Hr.
    apply andb_true_iff in Hr as [Hr _]. apply andb_true_iff in Hr. tauto.
Qed.



(** ** Snapshots of optional floats pass through the screen *)

Lemma pct_of_ratio_float (info : gmap string pyval) (k : string) :
  float_or_none (get info k) = true ->
  exists v, pct_of_ratio info k = Ok v /\ float_or_none v = true.
Proof.
  unfold pct_of_ratio.
  destruct (get info k) as [| b | q | | s]; cbn [float_or_none truthy];
    intros H; try discriminate.
  - eexists; split; reflexivity.
  - destruct (negb (Qeq_bool q 0)); eexists; split; reflexivity.
  - eexists; split; reflexivity.
Qed.

Lemma or_ok (x y : result pyval) :
  (exists v, x = Ok v) -> (exists w, y = Ok w) ->
  exists u, py_or x y = Ok u.
Proof.
  intros (v & ->) (w & ->). unfold py_or. cbn [bind].
  destruct (truthy v); eauto.
Qed.

Lemma and_ok (x y : result pyval) :
  (exists v, x = Ok v) -> (exists w, y = Ok w) ->
  exists u, py_and x y = Ok u.
Proof.
  intros (v & ->) (w & ->). unfold py_and. cbn [bind].
  destruct (truthy v); eauto.
Qed.

Lemma below_ok (v : pyval) (t : Q) :
  float_or_none v = true -> exists w, below v t = Ok w.
Proof.
  intros H. destruct (below_float v t H) as (w & Hw & _). eauto.
Qed.

Lemma above_ok (v : pyval) (t : Q) :
  float_or_none v = true -> exists w, above v t = Ok w.
Proof.
  intros H. destruct (above_float v t H) as (w & Hw & _). eauto.
Qed.

Lemma passes_float_total (c : config) (data : row) :
  float_or_none (Trailing_PE data) = true ->
  float_or_none (Forward_PE data) = true ->
  float_or_none (PEG_Ratio data) = true ->
  float_or_none (Earnings_Growth_pct data) = true ->
  float_or_none (Revenue_Growth_pct data) = true ->
  float_or_none (Upside_pct data) = true ->
  float_or_none (ROE_pct data) = true ->
  float_or_none (Debt_Equity data) = true ->
  float_or_none (Rec_Score data) = true ->
  exists b, passes c data = Ok b.
Proof.
  intros H1 H2 H3 H4 H5 H6 H7 H8 H9.
  assert (U : exists u, undervalued c data = Ok u).
  { unfold undervalued. repeat apply or_ok; apply below_ok; assumption. }
  assert (G : exists g, growth c data = Ok g).
  { unfold growth. repeat apply or_ok; apply above_ok; assumption. }
  assert (Qy : exists q, quality c data = Ok q).
  { unfold quality.
    apply and_ok; [apply above_ok; assumption|].
    apply and_ok; apply below_ok; assumption. }
  destruct U as (u & U), G as (g & G), Qy as (q & Qy).
  unfold passes. rewrite U, G, Qy. cbn [bind].
  destruct (and_ok (Ok u) (py_and (Ok g) (Ok q))) as (p & Hp).
  - eauto.
  - apply and_ok; eauto.
  - rewrite Hp. cbn [bind]. eauto.
Qed.

(** ** The scan over the universe *)

Section Scan.

Variable yf_info : string -> result (gmap string pyval).

Lemma fetch_raise_none (ticker : string) (e : exn) :
  fetch_body yf_info ticker = Raise e ->
  fetch_stock_metrics yf_info ticker = None.
Proof. unfold fetch_stock_metrics. intros ->. reflexivity. Qed.

Lemma provider_raise_none (ticker : string) (e : exn) :
  yf_info ticker = Raise e ->
  fetch_stock_metrics yf_info ticker = None.
Proof.
  intros H. apply (fetch_raise_none ticker e).
  unfold fetch_body. rewrite H. reflexivity.
Qed.



Lemma scan_screened_out (c : config) (tickers : list string) :
  Forall (screened_out yf_info c) tickers ->
  forall results, scan yf_info c results tickers = Ok results.
Proof.
  induction 1 as [| t tickers Ht _ IH]; intros results; [reflexivity|].
  cbn [scan]. unfold screened_out in Ht.
  destruct (fetch_stock_metrics yf_info t) as [data|]; [|apply IH].
  rewrite Ht. cbn [bind]. apply IH.
Qed.

Lemma payload_float_get (info : gmap string pyval) (k : string) :
  payload_float info = true -> In k numeric_keys ->
  float_or_none (get info k) = true.
Proof.
  unfold payload_float. intros H Hk.
  exact (proj1 (forallb_forall _ _) H k Hk).
Qed.

(** The snapshot fetched from a payload of optional floats holds optional
    floats, and it is returned. *)
Lemma fetch_float (ticker : string) (info : gmap string pyval) :
  yf_info ticker = Ok info ->
  payload_float info = true ->
  exists data,
    fetch_stock_metrics yf_info ticker = Some data /\
    forall c, exists b, passes c data = Ok b.
Proof.
  intros Hi Hp.
  assert (K : forall k, In k numeric_keys ->
                        float_or_none (get info k) = true).
  { intros k. apply payload_float_get. exact Hp. }
  destruct (upside_float_total info) as (up & Hu & Fu);
    [apply K; cbn; tauto | apply K; cbn; tauto |].
  destruct (fetch_some yf_info ticker info up Hi Hu)
    as (data & Hf & Hr & He & Hg & Hup & Ht & Hfw & Hpg & Hd & Hrs).
  exists data. split; [exact Hf|]. intros c.
  destruct (pct_of_ratio_float info "returnOnEquity") as (v1 & E1 & F1);
    [apply K; cbn; tauto|].
  destruct (pct_of_ratio_float info "earningsGrowth") as (v2 & E2 & F2);
    [apply K; cbn; tauto|].
  destruct (pct_of_ratio_float info "revenueGrowth") as (v3 & E3 & F3);
    [apply K; cbn; tauto|].
  rewrite Hr in E1. rewrite He in E2. rewrite Hg in E3.
  injection E1 as E1. injection E2 as E2. injection E3 as E3.
  apply passes_float_total.
  - rewrite Ht. apply K; cbn; tauto.
  - rewrite Hfw. apply K; cbn; tauto.
  - rewrite Hpg. apply K; cbn; tauto.
  - rewrite E2. exact F2.
  - rewrite E3. exact F3.
  - rewrite Hup. exact Fu.
  - rewrite E1. exact F1.
  - rewrite Hd. apply K; cbn; tauto.
  - rewrite Hrs. apply K; cbn; tauto.
Qed.

(** Neither a failing symbol nor a payload of optional floats makes the
    loop raise. *)
Lemma scan_float_total (c : config) (tickers : list string) :
  Forall (fails_or_floats yf_info) tickers ->
  forall results, exists rs, scan yf_info c results tickers = Ok rs.
Proof.
  induction 1 as [| t tickers Ht _ IH]; intros results.
  - exists results. reflexivity.
  - cbn [scan]. unfold fails_or_floats in Ht.
    destruct (yf_info t) as [info|e] eqn:Hi.
    + destruct (fetch_float t info Hi Ht) as (data & Hf & Hp).
      rewrite Hf. destruct (Hp c) as (b & Hb). rewrite Hb. cbn [bind].
      destruct b; apply IH.
    + rewrite (provider_raise_none t e Hi). apply IH.
Qed.


End Scan.


(** ** The outcome of a run *)

Section Main.

Variable yf_info : string -> result (gmap string pyval).
Variable load_sp500_tickers : result (list string).
Variable sort_values : list scored -> list scored.

(** C8: when the universe is loaded and no symbol contributes a record,
    the run ends normally with the warning that no stock matched; it
    raises nothing and produces neither a table nor an export. *)
Theorem no_matches_is_a_warning (c : config) (tickers : list string) :
  load_sp500_tickers = Ok tickers ->
  Forall (screened_out yf_info c) tickers ->
  main yf_info load_sp500_tickers sort_values c true
  = Ok (Warning "No stocks matched the criteria. Try relaxing filters.") /\
  (forall n df,
     main yf_info load_sp500_tickers sort_values c true <> Ok (Found n df)) /\
  (forall e,
     main yf_info load_sp500_tickers sort_values c true <> Raise e).
Proof.
  intros Hl Hs.
  assert (Hm : main yf_info load_sp500_tickers sort_values c true
               = Ok (Warning
                       "No stocks matched the criteria. Try relaxing filters.")).
  { unfold main. rewrite Hl. cbn [bind].
    rewrite (scan_screened_out yf_info c tickers Hs []). reflexivity. }
  rewrite Hm. repeat split; intros; discriminate.
Qed.

End Main.

Lemma no_matches_is_a_warning_witness :
  main failing_provider (Ok ["A"; "BAD"; "C"]) (fun df => df)
       default_config true
  = Ok (Warning "No stocks matched the criteria. Try relaxing filters.").
Proof.
  apply (no_matches_is_a_warning failing_provider (Ok ["A"; "BAD"; "C"])
           (fun df => df) default_config ["A"; "BAD"; "C"] eq_refl).
  repeat constructor.
Defined.

(** ** The three predicates on snapshots of optional floats *)

Lemma holds_py_and (x y : result pyval) (v : pyval) :
  x = Ok v -> holds (py_and x y) = truthy v && holds y.
Proof.
  intros ->. unfold py_and. cbn [bind]. destruct (truthy v) eqn:E.
  - reflexivity.
  - cbn [holds andb]. exact E.
Qed.

Lemma snapshot_float_fields (data : row) :
  snapshot_float data = true ->
  (float_or_none (Trailing_PE data) = true /\
   float_or_none (Forward_PE data) = true /\
   float_or_none (PEG_Ratio data) = true) /\
  (float_or_none (Earnings_Growth_pct data) = true /\
   float_or_none (Revenue_Growth_pct data) = true /\
   float_or_none (Upside_pct data) = true) /\
  (float_or_none (ROE_pct data) = true /\
   float_or_none (Debt_Equity data) = true /\
   float_or_none (Rec_Score data) = true).
Proof.
  unfold snapshot_float. rewrite !andb_true_iff. tauto.
Qed.

Lemma growth_float (c : config) (data : row) :
  float_or_none (Earnings_Growth_pct data) = true ->
  float_or_none (Revenue_Growth_pct data) = true ->
  float_or_none (Upside_pct data) = true ->
  holds (growth c data) = true <-> growth_cond c data.
Proof.
  intros H1 H2 H3. unfold growth, growth_cond.
  destruct (above_float _ 8 H1) as (w1 & E1 & I1).
  destruct (above_float _ 5 H2) as (w2 & E2 & I2).
  destruct (above_float _ (min_upside c) H3) as (w3 & E3 & I3).
  rewrite (holds_or _ _ w1 E1), (holds_or _ _ w2 E2), E3. cbn [holds].
  rewrite !orb_true_iff, I1, I2, I3. reflexivity.
Qed.

Lemma quality_float (c : config) (data : row) :
  float_or_none (ROE_pct data) = true ->
  float_or_none (Debt_Equity data) = true ->
  float_or_none (Rec_Score data) = true ->
  holds (quality c data) = true <-> quality_cond c data.
Proof.
  intros H1 H2 H3. unfold quality, quality_cond.
  destruct (above_float _ (min_roe c) H1) as (w1 & E1 & I1).
  destruct (below_float _ 150 H2) as (w2 & E2 & I2).
  destruct (below_float _ (28 # 10) H3) as (w3 & E3 & I3).
  rewrite (holds_py_and _ _ w1 E1), (holds_py_and _ _ w2 E2), E3.
  cbn [holds]. rewrite !andb_true_iff, I1, I2, I3. reflexivity.
Qed.

(** The test of the [if] is the conjunction of the three truth values. *)
Lemma passes_of_parts (c : config) (data : row) (u g q : pyval) :
  undervalued c data = Ok u -> growth c data = Ok g ->
  quality c data = Ok q ->
  passes c data = Ok (truthy u && truthy g && truthy q).
Proof.
  intros U G Qy. unfold passes. rewrite U, G, Qy. cbn [bind].
  unfold py_and. cbn [bind].
  destruct (truthy u) eqn:Eu; cbn [bind andb].
  - destruct (truthy g) eqn:Eg; cbn [bind andb].
    + reflexivity.
    + rewrite Eg. reflexivity.
  - rewrite Eu. reflexivity.
Qed.

Lemma passes_float (c : config) (data : row) :
  snapshot_float data = true ->
  exists b,
    passes c data = Ok b /\
    (b = true <->
     undervalued_cond c data /\ growth_cond c data /\ quality_cond c data).
Proof.
  intros H.
  destruct (snapshot_float_fields data H)
    as ((H1 & H2 & H3) & (H4 & H5 & H6) & (H7 & H8 & H9)).
  assert (U : exists u, undervalued c data = Ok u).
  { unfold undervalued. repeat apply or_ok; apply below_ok; assumption. }
  assert (G : exists g, growth c data = Ok g).
  { unfold growth. repeat apply or_ok; apply above_ok; assumption. }
  assert (Qy : exists q, quality c data = Ok q).
  { unfold quality.
    apply and_ok; [apply above_ok; assumption|].
    apply and_ok; apply below_ok; assumption. }
  destruct U as (u & U), G as (g & G), Qy as (q & Qy).
  exists (truthy u && truthy g && truthy q).
  split; [apply passes_of_parts; assumption|].
  pose proof (undervalued_float c data H1 H2 H3) as Iu.
  pose proof (growth_float c data H4 H5 H6) as Ig.
  pose proof (quality_float c data H7 H8 H9) as Iq.
  rewrite U in Iu. rewrite G in Ig. rewrite Qy in Iq.
  cbn [holds] in Iu, Ig, Iq. fold (undervalued_cond c data) in Iu.
  rewrite !andb_true_iff, Iu, Ig, Iq. tauto.
Qed.

(** X1: on a snapshot whose growth fields are optional floats, [growth] is
    true exactly when earnings growth is present, not zero and above 8, or
    revenue growth is present, not zero and above 5, or the upside is
    present, not zero and above [min_upside]. *)
Theorem growth_iff_nonzero_above (c : config) (data : row) :
  float_or_none (Earnings_Growth_pct data) = true ->
  float_or_none (Revenue_Growth_pct data) = true ->
  float_or_none (Upside_pct data) = true ->
  holds (growth c data) = true <->
  nonzero_above (Earnings_Growth_pct data) 8 \/
  nonzero_above (Revenue_Growth_pct data) 5 \/
  nonzero_above (Upside_pct data) (min_upside c).
Proof. apply growth_float. Qed.

Lemma growth_iff_nonzero_above_witness :
  holds (growth default_config upside_only_row) = true <->
  nonzero_above (VNum 10) 8 \/ nonzero_above VNaN 5 \/
  nonzero_above (VNum 20) 15.
Proof.
  apply (growth_iff_nonzero_above default_config upside_only_row);
    reflexivity.
Defined.

(** X2: on a snapshot whose quality fields are optional floats, [quality]
    is true exactly when ROE% is present, not zero and above [min_roe], and
    debt/equity is present, not zero and below 150, and the recommendation
    score is present, not zero and below 2.8. *)
Theorem quality_iff_all_three (c : config) (data : row) :
  float_or_none (ROE_pct data) = true ->
  float_or_none (Debt_Equity data) = true ->
  float_or_none (Rec_Score data) = true ->
  holds (quality c data) = true <->
  nonzero_above (ROE_pct data) (min_roe c) /\
  nonzero_below (Debt_Equity data) 150 /\
  nonzero_below (Rec_Score data) (28 # 10).
Proof. apply quality_float. Qed.

Lemma quality_iff_all_three_witness :
  holds (quality default_config full_row) = true <->
  nonzero_above (VNum 15) 8 /\ nonzero_below (VNum 50) 150 /\
  nonzero_below (VNum 2) (28 # 10).
Proof.
  apply (quality_iff_all_three default_config full_row); reflexivity.
Defined.

(** X3: on a snapshot of optional floats the test of the main loop raises
    nothing, and a record is kept exactly when the three conditions hold
    together. *)
Theorem passes_iff_three_screens (c : config) (data : row) :
  snapshot_float data = true ->
  exists b,
    passes c data = Ok b /\
    (b = true <->
     undervalued_cond c data /\ growth_cond c data /\ quality_cond c data).
Proof. apply passes_float. Qed.

Lemma passes_iff_three_screens_witness :
  exists b,
    passes default_config full_row = Ok b /\
    (b = true <->
     undervalued_cond default_config full_row /\
     growth_cond default_config full_row /\
     quality_cond default_config full_row).
Proof. apply (passes_iff_three_screens default_config full_row). reflexivity. Defined.

(** ** Relaxing the sliders *)

Lemma nonzero_below_le (v : pyval) (t t' : Q) :
  t <= t' -> nonzero_below v t -> nonzero_below v t'.
Proof.
  intros Hle (q & Hv & Hnz & Hlt). exists q.
  repeat split; try assumption. exact (Qlt_le_trans _ _ _ Hlt Hle).
Qed.

Lemma nonzero_above_le (v : pyval) (t t' : Q) :
  t' <= t -> nonzero_above v t -> nonzero_above v t'.
Proof.
  intros Hle (q & Hv & Hnz & Hlt). exists q.
  repeat split; try assumption. exact (Qle_lt_trans _ _ _ Hle Hlt).
Qed.

Lemma passes_relaxed (c c' : config) (data : row) :
  snapshot_float data = true -> relaxed c c' ->
  passes c data = Ok true -> passes c' data = Ok true.
Proof.
  intros Hf (R1 & R2 & R3 & R4 & R5) Hp.
  destruct (passes_float c data Hf) as (b & Hb & Ib).
  destruct (passes_float c' data Hf) as (b' & Hb' & Ib').
  rewrite Hb in Hp. injection Hp as ->.
  destruct (proj1 Ib eq_refl) as (U & G & Qy).
  rewrite Hb'. f_equal. apply Ib'. split; [|split].
  - destruct U as [U | [U | U]]; [left | right; left | right; right];
      eapply nonzero_below_le; eassumption.
  - destruct G as [G | [G | G]]; [left | right; left | right; right];
      try exact G. eapply nonzero_above_le; eassumption.
  - destruct Qy as (Q1 & Q2 & Q3). repeat split; try assumption.
    eapply nonzero_above_le; eassumption.
Qed.

(** X4: on a snapshot of optional floats, a record that passes the screen
    still passes after the sliders are relaxed (a higher [max_pe],
    [max_forward_pe] or [max_peg], a lower [min_roe] or [min_upside]). *)
Theorem relaxing_filters_keeps_match (c c' : config) (data : row) :
  snapshot_float data = true -> relaxed c c' ->
  passes c data = Ok true -> passes c' data = Ok true.
Proof. apply passes_relaxed. Qed.

Lemma relaxing_filters_keeps_match_witness :
  passes loosest_config full_row = Ok true.
Proof.
  apply (relaxing_filters_keeps_match default_config loosest_config full_row).
  - reflexivity.
  - unfold relaxed, default_config, loosest_config; simpl.
    repeat split; discriminate.
  - reflexivity.
Defined.

(** ** What the scan collects *)

Local Open Scope list_scope.

Section Collected.

Variable yf_info : string -> result (gmap string pyval).

Lemma fetch_ticker (ticker : string) (data : row) :
  fetch_stock_metrics yf_info ticker = Some data -> Ticker data = ticker.
Proof.
  unfold fetch_stock_metrics, fetch_body.
  destruct (yf_info ticker) as [info|e]; cbn [bind]; [|discriminate].
  destruct (pct_of_ratio info "returnOnEquity"); cbn [bind]; [|discriminate].
  destruct (pct_of_ratio info "earningsGrowth"); cbn [bind]; [|discriminate].
  destruct (pct_of_ratio info "revenueGrowth"); cbn [bind]; [|discriminate].
  destruct (upside_expr info); cbn [bind]; [|discriminate].
  intros H. injection H as <-. reflexivity.
Qed.

(** The snapshot fetched from a payload of optional floats holds optional
    floats in the nine screened fields. *)
Lemma fetch_float_snapshot (ticker : string) (data : row) :
  fails_or_floats yf_info ticker ->
  fetch_stock_metrics yf_info ticker = Some data ->
  snapshot_float data = true.
Proof.
  unfold fails_or_floats. intros Hp Hf.
  destruct (yf_info ticker) as [info|e] eqn:Hi.
  2:{ rewrite (provider_raise_none yf_info ticker e Hi) in Hf. discriminate. }
  assert (K : forall k, In k numeric_keys ->
                        float_or_none (get info k) = true).
  { intros k. apply payload_float_get. exact Hp. }
  destruct (upside_float_total info) as (up & Hu & Fu);
    [apply K; cbn; tauto | apply K; cbn; tauto |].
  destruct (fetch_some yf_info ticker info up Hi Hu)
    as (data' & Hf' & Hr & He & Hg & Hup & Ht & Hfw & Hpg & Hd & Hrs).
  rewrite Hf in Hf'. injection Hf' as <-.
  destruct (pct_of_ratio_float info "returnOnEquity") as (v1 & E1 & F1);
    [apply K; cbn; tauto|].
  destruct (pct_of_ratio_float info "earningsGrowth") as (v2 & E2 & F2);
    [apply K; cbn; tauto|].
  destruct (pct_of_ratio_float info "revenueGrowth") as (v3 & E3 & F3);
    [apply K; cbn; tauto|].
  rewrite Hr in E1. rewrite He in E2. rewrite Hg in E3.
  injection E1 as E1. injection E2 as E2. injection E3 as E3.
  unfold snapshot_float.
  rewrite Ht, Hfw, Hpg, E1, E2, E3, Hup, Hd, Hrs, F1, F2, F3, Fu.
  rewrite !K by (cbn; tauto). reflexivity.
Qed.

(** What the loop has added when it ends normally. *)
Lemma scan_inv (c : config) (tickers : list string) :
  forall results rs,
    scan yf_info c results tickers = Ok rs ->
    exists added,
      rs = (results ++ added)%list /\
      Forall (fun d => passes c d = Ok true /\
                       In (Ticker d) tickers /\
                       fetch_stock_metrics yf_info (Ticker d) = Some d)
             added /\
      sublist (map Ticker added) tickers.
Proof.
  induction tickers as [| t rest IH]; intros results rs Hs.
  - cbn [scan] in Hs. injection Hs as <-. exists [].
    rewrite app_nil_r. repeat split; constructor.
  - cbn [scan] in Hs.
    assert (Hskip : scan yf_info c results rest = Ok rs ->
                    exists added,
                      rs = (results ++ added)%list /\
                      Forall (fun d => passes c d = Ok true /\
                                       In (Ticker d) (t :: rest) /\
                                       fetch_stock_metrics yf_info (Ticker d)
                                       = Some d) added /\
                      sublist (map Ticker added) (t :: rest)).
    { intros Hs'. destruct (IH results rs Hs') as (added & -> & Ha & Hsub).
      exists added. split; [reflexivity|]. split.
      - eapply Forall_impl; [exact Ha|]. intros d (P & I & F).
        repeat split; [exact P | right; exact I | exact F].
      - apply sublist_cons. exact Hsub. }
    destruct (fetch_stock_metrics yf_info t) as [data|] eqn:Hf;
      [|exact (Hskip Hs)].
    destruct (passes c data) as [[|]|e] eqn:Hp; cbn [bind] in Hs;
      [| exact (Hskip Hs) | discriminate].
    destruct (IH (results ++ [data]) rs Hs) as (added & -> & Ha & Hsub).
    pose proof (fetch_ticker t data Hf) as Ht.
    exists (data :: added). split; [rewrite <- app_assoc; reflexivity|].
    split.
    + constructor.
      * repeat split; [exact Hp | left; symmetry; exact Ht |].
        rewrite Ht. exact Hf.
      * eapply Forall_impl; [exact Ha|]. intros d (P & I & F).
        repeat split; [exact P | right; exact I | exact F].
    + cbn [map]. rewrite Ht. apply sublist_skip. exact Hsub.
Qed.

(** X5: when the loop ends normally its result is the list it started
    from followed by added records, and every added record is the snapshot
    fetched for a symbol of the universe and passes the screen. *)
Theorem scan_adds_only_passing (c : config) (tickers : list string)
    (results rs : list row) :
  scan yf_info c results tickers = Ok rs ->
  exists added,
    rs = (results ++ added)%list /\
    Forall (fun d => passes c d = Ok true /\
                     In (Ticker d) tickers /\
                     fetch_stock_metrics yf_info (Ticker d) = Some d)
           added.
Proof.
  intros Hs. destruct (scan_inv c tickers results rs Hs)
    as (added & Hrs & Ha & _).
  exists added. split; assumption.
Qed.

(** X6: the symbols of the added records appear in the order of the
    universe, each at most as often as the universe lists it, so a run adds
    at most one record per symbol. *)
Theorem scan_keeps_universe_order (c : config) (tickers : list string)
    (results rs : list row) :
  scan yf_info c results tickers = Ok rs ->
  exists added,
    rs = (results ++ added)%list /\
    sublist (map Ticker added) tickers /\
    (length rs <= length results + length tickers)%nat.
Proof.
  intros Hs. destruct (scan_inv c tickers results rs Hs)
    as (added & Hrs & _ & Hsub).
  exists added. split; [exact Hrs|]. split; [exact Hsub|].
  rewrite Hrs, length_app. apply sublist_length in Hsub.
  rewrite length_map in Hsub. lia.
Qed.

(** X7: no match is lost: when the loop ends normally, the snapshot of
    every symbol of the universe that passes the screen is in the result,
    and so is every record the loop started from. *)
Theorem scan_keeps_every_match (c : config) (tickers : list string) :
  forall results rs,
    scan yf_info c results tickers = Ok rs ->
    (forall d, In d results -> In d rs) /\
    (forall t d, In t tickers ->
                 fetch_stock_metrics yf_info t = Some d ->
                 passes c d = Ok true -> In d rs).
Proof.
  induction tickers as [| t rest IH]; intros results rs Hs.
  - cbn [scan] in Hs. injection Hs as <-. split; [auto|].
    intros t d [].
  - cbn [scan] in Hs.
    destruct (fetch_stock_metrics yf_info t) as [data|] eqn:Hf.
    + destruct (passes c data) as [[|]|e] eqn:Hp; cbn [bind] in Hs;
        [| |discriminate].
      * destruct (IH _ _ Hs) as (Hkeep & Hall). split.
        -- intros d Hd. apply Hkeep. apply in_or_app. left. exact Hd.
        -- intros t' d [<- | Hin] Hf' Hp'.
           ++ rewrite Hf in Hf'. injection Hf' as <-.
              apply Hkeep. apply in_or_app. right. left. reflexivity.
           ++ exact (Hall t' d Hin Hf' Hp').
      * destruct (IH _ _ Hs) as (Hkeep & Hall). split; [exact Hkeep|].
        intros t' d [<- | Hin] Hf' Hp'.
        -- rewrite Hf in Hf'. injection Hf' as <-. congruence.
        -- exact (Hall t' d Hin Hf' Hp').
    + destruct (IH _ _ Hs) as (Hkeep & Hall). split; [exact Hkeep|].
      intros t' d [<- | Hin] Hf' Hp'.
      * congruence.
      * exact (Hall t' d Hin Hf' Hp').
Qed.

Lemma scan_app (c : config) (first second : list string) :
  forall results,
    scan yf_info c results (first ++ second)
    = let! r := scan yf_info c results first in scan yf_info c r second.
Proof.
  induction first as [| t first IH]; intros results; [reflexivity|].
  cbn [app scan].
  destruct (fetch_stock_metrics yf_info t) as [data|]; [|apply IH].
  destruct (passes c data) as [[|]|e]; cbn [bind];
    [apply IH | apply IH | reflexivity].
Qed.

(** X8: scanning a universe in two parts, the second part starting from
    the result of the first, is scanning the whole universe; if the first
    part raises, so does the whole. *)
Theorem scan_in_two_parts (c : config) (first second : list string)
    (results : list row) :
  scan yf_info c results (first ++ second)
  = let! r := scan yf_info c results first in scan yf_info c r second.
Proof. apply scan_app. Qed.

End Collected.

Lemma scan_adds_only_passing_witness :
  exists added,
    sample_results = [] ++ added /\
    Forall (fun d => passes default_config d = Ok true /\
                     In (Ticker d) sample_tickers /\
                     fetch_stock_metrics sample_provider (Ticker d) = Some d)
           added.
Proof.
  apply (scan_adds_only_passing sample_provider default_config
           sample_tickers [] sample_results).
  vm_compute. reflexivity.
Defined.

Lemma scan_keeps_universe_order_witness :
  exists added,
    sample_results = [] ++ added /\
    sublist (map Ticker added) sample_tickers /\
    (length sample_results <= length (@nil row) + length sample_tickers)%nat.
Proof.
  apply (scan_keeps_universe_order sample_provider default_config
           sample_tickers [] sample_results).
  vm_compute. reflexivity.
Defined.

Lemma scan_keeps_every_match_witness :
  (forall d, In d [] -> In d sample_results) /\
  (forall t d, In t sample_tickers ->
               fetch_stock_metrics sample_provider t = Some d ->
               passes default_config d = Ok true -> In d sample_results).
Proof.
  apply (scan_keeps_every_match sample_provider default_config
           sample_tickers [] sample_results).
  vm_compute. reflexivity.
Defined.

(** ** Relaxing the sliders over a whole scan *)

Section Relaxed.

Variable yf_info : string -> result (gmap string pyval).

Lemma scan_relaxed (c c' : config) (tickers : list string) :
  relaxed c c' ->
  Forall (fails_or_floats yf_info) tickers ->
  forall results results' rs,
    sublist results results' ->
    scan yf_info c results tickers = Ok rs ->
    exists rs', scan yf_info c' results' tickers = Ok rs' /\ sublist rs rs'.
Proof.
  intros Hrel. induction 1 as [| t rest Ht _ IH];
    intros results results' rs Hsub Hs.
  - cbn [scan] in *. injection Hs as <-. exists results'. split; auto.
  - cbn [scan] in *.
    destruct (fetch_stock_metrics yf_info t) as [data|] eqn:Hf;
      [|exact (IH _ _ _ Hsub Hs)].
    pose proof (fetch_float_snapshot yf_info t data Ht Hf) as Hfl.
    destruct (passes_float c data Hfl) as (b & Hb & _).
    destruct (passes_float c' data Hfl) as (b' & Hb' & _).
    rewrite Hb in Hs. rewrite Hb'. cbn [bind] in *.
    destruct b, b'.
    + apply (IH _ _ _ (sublist_app _ _ _ _ Hsub (reflexivity [data])) Hs).
    + rewrite (passes_relaxed c c' data Hfl Hrel Hb) in Hb'. discriminate.
    + apply (IH _ _ _ (sublist_inserts_r [data] _ _ Hsub) Hs).
    + exact (IH _ _ _ Hsub Hs).
Qed.

(** X9: over a universe whose symbols fail or answer with optional floats,
    a run with relaxed sliders ends normally whenever the original run
    does, and its records contain those of the original run, in the same
    order. *)
Theorem relaxed_run_contains_original (c c' : config)
    (tickers : list string) (rs : list row) :
  relaxed c c' ->
  Forall (fails_or_floats yf_info) tickers ->
  scan yf_info c [] tickers = Ok rs ->
  exists rs', scan yf_info c' [] tickers = Ok rs' /\ sublist rs rs'.
Proof.
  intros Hrel Hall Hs.
  exact (scan_relaxed c c' tickers Hrel Hall [] [] rs (reflexivity []) Hs).
Qed.

End Relaxed.

Lemma relaxed_run_contains_original_witness :
  exists rs',
    scan sample_provider loosest_config [] sample_tickers = Ok rs' /\
    sublist sample_results rs'.
Proof.
  apply (relaxed_run_contains_original sample_provider default_config
           loosest_config sample_tickers sample_results).
  - unfold relaxed, default_config, loosest_config; simpl.
    repeat split; discriminate.
  - repeat constructor.
  - vm_compute. reflexivity.
Defined.

(** ** Snapshots built from sparse payloads *)

Section Sparse.

Variable yf_info : string -> result (gmap string pyval).

(** X10: when the payload holds none of the keys the fetcher reads, the
    snapshot is still returned: the names are empty strings, the three
    percentages and the upside are nan, and the other fields are None. *)
Theorem fetch_without_keys (ticker : string) (info : gmap string pyval) :
  yf_info ticker = Ok info ->
  Forall (fun k => info !! k = None) read_keys ->
  fetch_stock_metrics yf_info ticker = Some (blank_row ticker).
Proof.
  intros Hi Hk.
  assert (K : forall k, k ∈ read_keys -> info !! k = None).
  { exact (proj1 (Forall_forall _ _) Hk). }
  unfold fetch_stock_metrics, fetch_body. rewrite Hi. cbn [bind].
  unfold pct_of_ratio, upside_expr, py_and, get, get_default.
  rewrite !K by (unfold read_keys; repeat constructor).
  reflexivity.
Qed.

Lemma pct_of_ratio_value_nonzero (info : gmap string pyval) (k : string)
    (q : Q) :
  pct_of_ratio info k = Ok (VNum q) -> ~ q == 0.
Proof.
  unfold pct_of_ratio.
  destruct (get info k) as [| b | x | | s]; cbn [truthy].
  - discriminate.
  - destruct b; [|discriminate]. intros H. injection H as <-.
    intros H0. vm_compute in H0. discriminate H0.
  - destruct (Qeq_bool x 0) eqn:Ex; cbn [negb]; [discriminate|].
    intros H. injection H as <-. intros H0.
    apply Qmult_integral in H0. destruct H0 as [H0 | H0].
    + apply Qeq_bool_iff in H0. congruence.
    + vm_compute in H0. discriminate H0.
  - discriminate.
  - destruct (negb (s =? "")%string); discriminate.
Qed.

Lemma above_nonzero (q t : Q) :
  ~ q == 0 -> holds (above (VNum q) t) = true <-> t < q.
Proof.
  intros Hq. destruct (above_float (VNum q) t eq_refl) as (w & Hw & Iw).
  rewrite Hw. cbn [holds]. rewrite Iw. split.
  - intros (q' & E & _ & Hlt). injection E as <-. exact Hlt.
  - intros Hlt. exists q. repeat split; assumption.
Qed.

(** X11: the ROE%, earnings growth % and revenue growth % of a fetched
    snapshot are never a present zero, so the clauses of the screen on
    these fields hold exactly when the value is present and beyond the
    threshold. *)
Theorem fetched_percent_never_zero (ticker : string) (data : row) :
  fetch_stock_metrics yf_info ticker = Some data ->
  forall q : Q,
    ROE_pct data = VNum q \/ Earnings_Growth_pct data = VNum q \/
    Revenue_Growth_pct data = VNum q ->
    ~ q == 0 /\
    forall t : Q, holds (above (VNum q) t) = true <-> t < q.
Proof.
  intros Hf q Hq.
  destruct (fetch_inv yf_info ticker data Hf)
    as (info & _ & Hr & He & Hg & _).
  assert (Hnz : ~ q == 0).
  { destruct Hq as [E | [E | E]].
    - rewrite E in Hr. exact (pct_of_ratio_value_nonzero _ _ _ Hr).
    - rewrite E in He. exact (pct_of_ratio_value_nonzero _ _ _ He).
    - rewrite E in Hg. exact (pct_of_ratio_value_nonzero _ _ _ Hg). }
  split; [exact Hnz|]. intros t. apply above_nonzero. exact Hnz.
Qed.

End Sparse.

Lemma fetch_without_keys_witness :
  fetch_stock_metrics (constant_provider unrelated_info) "T"
  = Some (blank_row "T").
Proof.
  apply (fetch_without_keys (constant_provider unrelated_info) "T"
           unrelated_info eq_refl).
  repeat constructor.
Defined.

Lemma fetched_percent_never_zero_witness :
  ~ (1500 # 100) == 0 /\
  forall t : Q, holds (above (VNum (1500 # 100)) t) = true <-> t < 1500 # 100.
Proof.
  apply (fetched_percent_never_zero sample_provider "GOOD" good_row).
  - vm_compute. reflexivity.
  - left. reflexivity.
Defined.

(** ** The whole run *)

Section Run.

Variable yf_info : string -> result (gmap string pyval).
Variable load_sp500_tickers : result (list string).
Variable sort_values : list scored -> list scored.

Lemma snapshot_score_fields (data : row) :
  snapshot_float data = true -> score_fields_float data = true.
Proof.
  intros H. destruct (snapshot_float_fields data H)
    as ((H1 & _ & H3) & (_ & _ & H6) & _).
  unfold score_fields_float. rewrite H1, H3, H6. reflexivity.
Qed.

Lemma scan_results_float (c : config) (tickers : list string)
    (rs : list row) :
  Forall (fails_or_floats yf_info) tickers ->
  scan yf_info c [] tickers = Ok rs ->
  Forall (fun r => score_fields_float r = true) rs.
Proof.
  intros Hall Hs.
  destruct (scan_inv yf_info c tickers [] rs Hs) as (added & -> & Ha & _).
  cbn [app]. eapply Forall_impl; [exact Ha|].
  intros d (_ & Hin & Hf). apply snapshot_score_fields.
  apply (fetch_float_snapshot yf_info (Ticker d) d); [|exact Hf].
  apply list_elem_of_In in Hin.
  exact (proj1 (Forall_forall _ _) Hall _ Hin).
Qed.

Lemma assign_score_map (f : row -> pyval) (rs : list row) :
  assign_score rs (map f rs) = map (fun r => mkScored r (f r)) rs.
Proof.
  unfold assign_score. induction rs as [| r rs IH]; [reflexivity|].
  cbn [map combine fst snd]. f_equal. exact IH.
Qed.

Lemma main_found (c : config) (tickers : list string) (rs : list row) :
  load_sp500_tickers = Ok tickers ->
  Forall (fails_or_floats yf_info) tickers ->
  scan yf_info c [] tickers = Ok rs ->
  rs <> [] ->
  main yf_info load_sp500_tickers sort_values c true
  = Ok (Found (length (sort_values (scored_frame rs)))
              (sort_values (scored_frame rs))).
Proof.
  intros Hl Hall Hs Hne. unfold main. rewrite Hl. cbn [bind].
  rewrite Hs. cbn [bind].
  destruct rs as [| r rs']; [contradiction|].
  rewrite (value_score_map (r :: rs')
             (scan_results_float c tickers (r :: rs') Hall Hs)).
  cbn [bind]. rewrite assign_score_map. reflexivity.
Qed.

(** X12: when every symbol of the loaded universe fails or answers with
    optional floats, the run raises exactly when loading the universe
    raises, and then with the same exception; nothing raised for a symbol
    reaches the caller. *)
Theorem run_raises_only_for_universe (c : config) :
  (forall tickers,
     load_sp500_tickers = Ok tickers ->
     Forall (fails_or_floats yf_info) tickers) ->
  forall e,
    main yf_info load_sp500_tickers sort_values c true = Raise e <->
    load_sp500_tickers = Raise e.
Proof.
  intros Hall e. destruct load_sp500_tickers as [tickers|e0] eqn:Hl.
  - specialize (Hall tickers eq_refl).
    destruct (scan_float_total yf_info c tickers Hall []) as (rs & Hs).
    split; [|discriminate]. intros Hm.
    destruct rs as [| r rs'].
    + unfold main in Hm. cbn [bind] in Hm. rewrite Hs in Hm.
      discriminate Hm.
    + assert (Hne : r :: rs' <> []) by discriminate.
      unfold main in Hm. cbn [bind] in Hm. rewrite Hs in Hm.
      cbn [bind] in Hm.
      rewrite (value_score_map (r :: rs')
                 (scan_results_float c tickers (r :: rs') Hall Hs)) in Hm.
      discriminate Hm.
  - unfold main. cbn [bind].
    split; intros H; injection H as ->; reflexivity.
Qed.

(** X13: when every symbol of the loaded universe fails or answers with
    optional floats and the scan of that universe returns at least one
    record, the run reports success: the frame given to [sort_values] holds
    the records in scan order, each with its Value Score, and the count
    shown is the length of the sorted frame. *)
Theorem run_reports_scored_records (c : config) (tickers : list string)
    (rs : list row) :
  load_sp500_tickers = Ok tickers ->
  Forall (fails_or_floats yf_info) tickers ->
  scan yf_info c [] tickers = Ok rs ->
  rs <> [] ->
  main yf_info load_sp500_tickers sort_values c true
  = Ok (Found (length (sort_values (scored_frame rs)))
              (sort_values (scored_frame rs))).
Proof. apply main_found. Qed.

End Run.

Lemma run_raises_only_for_universe_witness :
  (main sample_provider (Ok sample_tickers) (fun df => df)
        default_config true = Raise TypeError <->
   Ok sample_tickers = Raise TypeError) /\
  main sample_provider (Raise ExternalError) (fun df => df)
       default_config true = Raise ExternalError.
Proof.
  split.
  - apply (run_raises_only_for_universe sample_provider (Ok sample_tickers)
             (fun df => df) default_config).
    intros tickers H. injection H as <-. repeat constructor.
  - apply (run_raises_only_for_universe sample_provider
             (Raise ExternalError) (fun df => df) default_config).
    + intros tickers H. discriminate H.
    + reflexivity.
Defined.

Lemma run_reports_scored_records_witness :
  main sample_provider (Ok sample_tickers) (fun df => df)
       default_config true
  = Ok (Found (length (scored_frame sample_results))
              (scored_frame sample_results)).
Proof.
  apply (run_reports_scored_records sample_provider (Ok sample_tickers)
           (fun df => df) default_config sample_tickers sample_results
           eq_refl).
  - repeat constructor.
  - vm_compute. reflexivity.
  - discriminate.
Defined.

(** ** A string among the screened fields *)

Section Strings.

Variable yf_info : string -> result (gmap string pyval).

Lemma passes_string_pe (c : config) (data : row) (s : string) :
  Trailing_PE data = VStr s -> s <> ""%string ->
  passes c data = Raise TypeError.
Proof.
  intros Ht Hs. apply String.eqb_neq in Hs.
  unfold passes, undervalued, below, py_or, py_and. rewrite Ht.
  cbn [bind truthy]. rewrite Hs. reflexivity.
Qed.

(** X14: the isolation of failures ends at the fetch: when the payload of
    a symbol holds a non-empty string under trailingPE (and its prices are
    optional floats, so that the snapshot is returned), the comparison in
    the main loop raises TypeError, which is not caught: the scan raises,
    whatever was collected from the symbols before it. *)
Theorem string_pe_aborts_scan (c : config) (ticker : string)
    (info : gmap string pyval) (s : string) :
  yf_info ticker = Ok info ->
  get info "trailingPE" = VStr s -> s <> ""%string ->
  float_or_none (get info "targetMeanPrice") = true ->
  float_or_none (get info "currentPrice") = true ->
  forall results before after collected,
    scan yf_info c results before = Ok collected ->
    scan yf_info c results (before ++ ticker :: after) = Raise TypeError.
Proof.
  intros Hi Hpe Hs Ht Hc results before after collected Hb.
  destruct (upside_float_total info Ht Hc) as (up & Hu & _).
  destruct (fetch_some yf_info ticker info up Hi Hu)
    as (data & Hf & _ & _ & _ & _ & Htp & _).
  rewrite scan_app, Hb. cbn [bind scan]. rewrite Hf.
  rewrite (passes_string_pe c data s); [reflexivity | | exact Hs].
  rewrite Htp. exact Hpe.
Qed.

End Strings.

Lemma string_pe_aborts_scan_witness :
  scan (constant_provider string_pe_info) default_config [full_row]
       ([] ++ "S" :: ["A"])
  = Raise TypeError.
Proof.
  apply (string_pe_aborts_scan (constant_provider string_pe_info)
           default_config "S" string_pe_info "Infinity" eq_refl eq_refl)
    with (collected := [full_row]).
  - discriminate.
  - reflexivity.
  - reflexivity.
  - reflexivity.
Defined.

(** ** The score orders the records *)

(** X16: of two records whose score fields are optional floats, the one
    with the lower or equal PEG ratio and trailing P/E (999 standing for an
    absent one) and the higher or equal upside (0 standing for an absent
    one) never gets the higher Value Score. *)
Theorem better_inputs_never_score_higher (r1 r2 : row) :
  score_fields_float r1 = true -> score_fields_float r2 = true ->
  or_default 999 (PEG_Ratio r1) <= or_default 999 (PEG_Ratio r2) ->
  or_default 999 (Trailing_PE r1) <= or_default 999 (Trailing_PE r2) ->
  or_default 0 (Upside_pct r2) <= or_default 0 (Upside_pct r1) ->
  exists s1 s2,
    value_score [r1; r2] = Ok [VNum s1; VNum s2] /\ s1 <= s2.
Proof.
  intros F1 F2 Hp Ht Hu.
  exists (score_formula r1), (score_formula r2). split.
  - apply (value_score_map [r1; r2]). repeat constructor; assumption.
  - unfold score_formula. lra.
Qed.

Lemma better_inputs_never_score_higher_witness :
  exists s1 s2,
    value_score [full_row; blank_row "B"] = Ok [VNum s1; VNum s2] /\
    s1 <= s2.
Proof.
  apply (better_inputs_never_score_higher full_row (blank_row "B"));
    [reflexivity | reflexivity | discriminate | discriminate | discriminate].
Defined.

(** ** Clauses that decide a predicate alone *)

Lemma below_nonzero_true (v : pyval) (t : Q) :
  nonzero_below v t -> below v t = Ok (VBool true).
Proof.
  intros (q & -> & Hnz & Hlt). unfold below, py_and, py_lt.
  cbn [bind num_of]. rewrite (proj2 (truthy_num q) Hnz).
  rewrite (proj2 (Qltb_lt q t) Hlt). reflexivity.
Qed.

Lemma above_nonzero_true (v : pyval) (t : Q) :
  nonzero_above v t -> above v t = Ok (VBool true).
Proof.
  intros (q & -> & Hnz & Hlt). unfold above, py_and, py_gt.
  cbn [bind num_of]. rewrite (proj2 (truthy_num q) Hnz).
  rewrite (proj2 (Qltb_lt t q) Hlt). reflexivity.
Qed.

(** X17: the first clause can decide alone, whatever the later fields of
    the snapshot hold (strings included), because they are then never
    compared: a trailing P/E that is present, not zero and below [max_pe]
    makes [undervalued] True; an earnings growth that is present, not zero
    and above 8 makes [growth] True; a ROE% that is None or zero makes
    [quality] falsy. *)
Theorem first_clause_decides (c : config) (data : row) :
  (nonzero_below (Trailing_PE data) (max_pe c) ->
   undervalued c data = Ok (VBool true)) /\
  (nonzero_above (Earnings_Growth_pct data) 8 ->
   growth c data = Ok (VBool true)) /\
  (none_or_zero (ROE_pct data) = true ->
   quality c data = Ok (ROE_pct data) /\ holds (quality c data) = false).
Proof.
  split; [|split].
  - intros H. unfold undervalued, py_or.
    rewrite (below_nonzero_true _ _ H). reflexivity.
  - intros H. unfold growth, py_or.
    rewrite (above_nonzero_true _ _ H). reflexivity.
  - intros H. apply none_or_zero_falsy in H.
    assert (E : quality c data = Ok (ROE_pct data)).
    { unfold quality, above, py_and. cbn [bind]. rewrite H. cbn [bind].
      rewrite H. reflexivity. }
    rewrite E. split; [reflexivity | exact H].
Qed.

Lemma first_clause_decides_witness :
  undervalued default_config pe10_row = Ok (VBool true) /\
  growth default_config full_row = Ok (VBool true) /\
  quality default_config zero_roe_row = Ok (VNum 0).
Proof.
  split; [|split].
  - apply (proj1 (first_clause_decides default_config pe10_row)).
    exists 10. repeat split. discriminate.
  - apply (proj1 (proj2 (first_clause_decides default_config full_row))).
    exists 10. repeat split. discriminate.
  - apply (proj2 (proj2 (first_clause_decides default_config zero_roe_row))).
    reflexivity.
Defined.

(** ** The count of the success message *)

Section Count.

Variable yf_info : string -> result (gmap string pyval).
Variable load_sp500_tickers : result (list string).
Variable sort_values : list scored -> list scored.

(** X18: when the symbols of the loaded universe fail or answer with
    optional floats and [sort_values] returns as many rows as it is given,
    a run that reports success shows a count that is the number of rows of
    its frame, is at least 1 and is at most the number of symbols. *)
Theorem found_count_bounds (c : config) (tickers : list string)
    (n : nat) (df : list scored) :
  load_sp500_tickers = Ok tickers ->
  Forall (fails_or_floats yf_info) tickers ->
  (forall l, length (sort_values l) = length l) ->
  main yf_info load_sp500_tickers sort_values c true = Ok (Found n df) ->
  length df = n /\ (1 <= n <= length tickers)%nat.
Proof.
  intros Hl Hall Hsort Hm.
  destruct (scan_float_total yf_info c tickers Hall []) as (rs & Hs).
  destruct rs as [| r rs'].
  - unfold main in Hm. rewrite Hl in Hm. cbn [bind] in Hm.
    rewrite Hs in Hm. discriminate Hm.
  - rewrite (main_found yf_info load_sp500_tickers sort_values c tickers
               (r :: rs') Hl Hall Hs) in Hm by discriminate.
    injection Hm as Hn Hdf. subst df. split; [exact Hn|].
    assert (Hb : (1 <= length (r :: rs') <= length tickers)%nat).
    { destruct (scan_inv yf_info c tickers [] (r :: rs') Hs)
        as (added & Hrs & _ & Hsub).
      cbn [app] in Hrs. subst added. apply sublist_length in Hsub.
      rewrite length_map in Hsub. cbn [length] in *. lia. }
    rewrite <- Hn, Hsort. cbn [length] in *.
    unfold scored_frame. rewrite length_map. exact Hb.
Qed.

End Count.

Lemma found_count_bounds_witness :
  length (scored_frame sample_results) = 1%nat /\
  (1 <= 1 <= length sample_tickers)%nat.
Proof.
  apply (found_count_bounds sample_provider (Ok sample_tickers)
           (fun df => df) default_config sample_tickers 1
           (scored_frame sample_results) eq_refl).
  - repeat constructor.
  - reflexivity.
  - vm_compute. reflexivity.
Defined.

(** ** A return on equity of zero *)

(** C2 (as amended): for a payload whose return on equity is exactly 0 the
    fetched snapshot holds ROE% as absent (nan), as for a missing field; the
    ROE clause of [quality] is then False and [quality] is false for every
    [min_roe], which for a [min_roe] that is not negative (the slider range,
    8 for instance) is the value of the comparison 0 > min_roe; the snapshot
    is returned whenever the two prices are optional floats.  A fetched
    snapshot never holds a ROE% of zero, and on a present ROE% the clause is
    the comparison ROE% > min_roe. *)
Theorem zero_roe_is_stored_absent
    (yf_info : string -> result (gmap string pyval)) (c : config) :
  (forall ticker info q,
     yf_info ticker = Ok info ->
     get info "returnOnEquity" = VNum q -> q == 0 ->
     (forall data,
        fetch_stock_metrics yf_info ticker = Some data ->
        ROE_pct data = VNaN /\
        above (ROE_pct data) (min_roe c) = Ok (VBool false) /\
        holds (quality c data) = false /\
        (0 <= min_roe c ->
         holds (above (ROE_pct data) (min_roe c)) = Qltb (min_roe c) q)) /\
     (float_or_none (get info "targetMeanPrice") = true ->
      float_or_none (get info "currentPrice") = true ->
      exists data, fetch_stock_metrics yf_info ticker = Some data)) /\
  (forall ticker data q,
     fetch_stock_metrics yf_info ticker = Some data ->
     ROE_pct data = VNum q ->
     ~ q == 0 /\
     above (ROE_pct data) (min_roe c) = Ok (VBool (Qltb (min_roe c) q))).
Proof.
  split.
  - intros ticker info q Hi Hr Hq. split.
    + intros data Hf.
      destruct (fetch_inv yf_info ticker data Hf)
        as (info' & Hi' & Hroe & _).
      rewrite Hi in Hi'. injection Hi' as <-.
      rewrite (pct_of_ratio_zero info "returnOnEquity" q Hr Hq) in Hroe.
      injection Hroe as Hroe.
      split; [symmetry; exact Hroe|].
      unfold quality. rewrite <- Hroe.
      split; [reflexivity|]. split; [reflexivity|].
      intros Hm. cbn. symmetry.
      destruct (Qltb (min_roe c) q) eqn:E; [|reflexivity].
      apply Qltb_lt in E. rewrite Hq in E.
      exfalso. exact (Qlt_not_le _ _ E Hm).
    + intros Ht Hc.
      destruct (upside_float_total info Ht Hc) as (up & Hu & _).
      destruct (fetch_some yf_info ticker info up Hi Hu) as (data & Hf & _).
      exists data. exact Hf.
  - intros ticker data q Hf Hr.
    destruct (fetch_inv yf_info ticker data Hf) as (info & _ & Hroe & _).
    rewrite Hr in Hroe.
    pose proof (pct_of_ratio_value_nonzero info _ q Hroe) as Hnz.
    split; [exact Hnz|].
    rewrite Hr. unfold above, py_and, py_gt. cbn [bind num_of].
    rewrite (proj2 (truthy_num q) Hnz). reflexivity.
Qed.

(** The snapshot fetched from [zero_roe_info]. *)
Lemma zero_roe_is_stored_absent_witness :
  (forall data,
     fetch_stock_metrics (constant_provider zero_roe_info) "R" = Some data ->
     ROE_pct data = VNaN /\
     above (ROE_pct data) (min_roe (config_with_min_roe 8))
       = Ok (VBool false) /\
     holds (quality (config_with_min_roe 8) data) = false /\
     (0 <= min_roe (config_with_min_roe 8) ->
      holds (above (ROE_pct data) (min_roe (config_with_min_roe 8)))
      = Qltb (min_roe (config_with_min_roe 8)) 0)) /\
  (exists data,
     fetch_stock_metrics (constant_provider zero_roe_info) "R" = Some data) /\
  (~ (1500 # 100) == 0 /\
   above (ROE_pct good_row) (min_roe (config_with_min_roe 8))
   = Ok (VBool (Qltb (min_roe (config_with_min_roe 8)) (1500 # 100)))).
Proof.
  pose proof (proj1 (zero_roe_is_stored_absent
                       (constant_provider zero_roe_info)
                       (config_with_min_roe 8))
                "R" zero_roe_info 0 eq_refl eq_refl (Qeq_refl 0))
    as (Hall & Hsome).
  split; [exact Hall|]. split.
  - apply Hsome; reflexivity.
  - apply (proj2 (zero_roe_is_stored_absent sample_provider
                    (config_with_min_roe 8))
             "GOOD" good_row (1500 # 100)).
    + vm_compute. reflexivity.
    + reflexivity.
Defined.

(** C2 as stated fails: a return on equity of exactly 0 is treated as an
    absent field.  The snapshot fetched from a payload that reports 0 holds
    nan, the same as the snapshot fetched from the payload without the key,
    although the payload meets every other threshold of the default
    screen. *)
Lemma zero_roe_payload_counterexample :
  get zero_roe_info "returnOnEquity" = VNum 0 /\
  get no_roe_info "returnOnEquity" = VNone /\
  option_map ROE_pct
    (fetch_stock_metrics (constant_provider zero_roe_info) "R")
  = Some VNaN /\
  option_map (fun data => absent (ROE_pct data))
    (fetch_stock_metrics (constant_provider zero_roe_info) "R")
  = Some true /\
  fetch_stock_metrics (constant_provider zero_roe_info) "R"
  = fetch_stock_metrics (constant_provider no_roe_info) "R".
Proof. repeat split; vm_compute; reflexivity. Qed.

(** ** A payload that is not made of floats *)


(** C9 as stated fails: the computation raises for some payloads.  With the
    string "n/a" as target price and a current price of 5 the subtraction
    raises TypeError. *)
Lemma upside_string_price_counterexample :
  get string_price_info "targetMeanPrice" = VStr "n/a" /\
  get string_price_info "currentPrice" = VNum 5 /\
  upside_expr string_price_info = Raise TypeError.
Proof. repeat split. Qed.
